(** * The PV data source of [psp/data/data_sources/pv.py]

    A shallow embedding of [min_timestamp] and of the class
    [NetcdfPvDataSource], with the parts of [xarray], [copy] and [datetime]
    that the class calls, and the properties of the data source proved over
    that embedding. *)

From stdpp Require Import gmap strings list fin_maps pretty.

Local Open Scope Z_scope.
Local Set Warnings "-register-all".

(** ** Timestamps *)

(** Modelled from the spec: [psp.typings.Timestamp] is imported by the module
    but declared elsewhere.  The spec describes it as a totally ordered point
    in time of minute-or-finer resolution; the arithmetic of [without_future]
    ([ts - timedelta(...)]) and the call of [to_pydatetime] make it a
    [datetime.datetime].  A timestamp is the count of microseconds, the
    resolution of [datetime], since 1970-01-01; the bounded range of
    [datetime] (years 1 to 9999) is not part of the model. *)
Abbreviation Timestamp := Z.

(** Modelled from the spec: [psp.typings.PvId] is imported by the module but
    declared elsewhere.  The spec has an id as an opaque string, and the
    module converts the ids of a store to [str]. *)
Abbreviation PvId := string.

(** [datetime.timedelta(minutes=m)] and [datetime.timedelta(seconds=s)], in
    microseconds. *)
Definition timedelta_minutes (m : Z) : Z := m * 60000000.
Definition timedelta_seconds (s : Z) : Z := s * 1000000.

(** ** [min_timestamp] *)

(** The minimum of two timestamps where [None] is greater than every
    timestamp; the four branches are those of the source. *)
Definition min_timestamp (a b : option Timestamp) : option Timestamp :=
  match a with
  | None =>
      match b with
      | None => None
      | Some b' => Some b'
      end
  | Some a' =>
      match b with
      | None => Some a'
      | Some b' => Some (Z.min a' b')
      end
  end.

(** [t] does not exceed the optional upper bound [b] ([None]: no bound). *)
Definition below (t : Timestamp) (b : option Timestamp) : Prop :=
  match b with
  | None => True
  | Some x => t <= x
  end.

(** [t] is not before the optional lower bound [b] ([None]: no bound). *)
Definition above (t : Timestamp) (b : option Timestamp) : Prop :=
  match b with
  | None => True
  | Some x => x <= t
  end.

(** ** Exceptions *)

(** The Python exceptions the data source can raise, with the part of their
    message that identifies what failed. *)
Inductive exn :=
  | AttributeError (name : string)
  | KeyError (msg : string)
  | ValueError (msg : string)
  | TypeError (msg : string)
  | FileNotFoundError (path : string)
  | InvalidIndexError
  | OutOfBoundsDatetime (t : Timestamp)
  | AssertionError.

(** A function that returns or raises. *)
#[export] Instance result_ret : MRet (sum exn) := λ A x, inr x.

#[export] Instance result_bind : MBind (sum exn) := λ A B f r,
  match r with
  | inl e => inl e
  | inr x => f x
  end.

(** ** The part of [xarray] the data source calls

    [xarray] is a dependency, not part of the repository.  The model follows
    the library: a dataset is a set of named coordinates and named variables;
    [sel] resolves labels to positions with the index of the coordinate and
    then selects by position.  The model of a label slice is the one of an
    index in increasing order (pandas resolves both bounds by binary search
    there), which is how a time series is stored; the theorems that depend
    on it carry that as a hypothesis.  What pandas does with a label slice
    on an index in another order is not part of the model.  The time index
    holds [datetime64[ns]], and a bound of a slice is converted to that type
    before it is compared, which fails outside its range. *)
Module xr.

(** A coordinate label: a string, or a number (an integer id or, on a time
    axis, a [datetime64] read as a [Timestamp]). *)
Inductive label :=
  | LNum (n : Z)
  | LStr (s : string).

#[global] Instance label_eq_dec : EqDecision label.
Proof. solve_decision. Defined.

(** A coordinate: the labels along the dimension of its name, or, once a
    scalar selection has dropped the dimension, the single label left. *)
Inductive coord :=
  | Point (l : label)
  | Index (ls : list label).

(** The values of a variable, one nesting level per dimension.  The data
    source never computes on a measurement, it only moves it. *)
Inductive ndarray :=
  | Item (x : Z)
  | Axis (xs : list ndarray).

Record DataArray := { dims : list string; values : ndarray }.

(** The measurements an array holds, in order. *)
Fixpoint items (a : ndarray) : list Z :=
  match a with
  | Item x => [x]
  | Axis xs => mjoin (items <$> xs)
  end.

(** An array of rank [n] has [n] nesting levels on every path. *)
Fixpoint has_rank (n : nat) (a : ndarray) : bool :=
  match n, a with
  | O, Item _ => true
  | S n', Axis xs => forallb (has_rank n') xs
  | _, _ => false
  end.

(** A variable has one nesting level for each of its dimensions. *)
Definition well_shaped (a : DataArray) : bool :=
  has_rank (length (dims a)) (values a).

Record Dataset := {
  coords : gmap string coord;
  data_vars : gmap string DataArray
}.

(** A positional indexer, what a label query resolves to. *)
Inductive indexer :=
  | At (p : nat)
  | Take (ps : list nat)
  | Range (lo hi : nat).

(** Positional selection on a list, for the indexers that keep the
    dimension. *)
Definition index_list {A : Type} (ix : indexer) (l : list A) : list A :=
  match ix with
  | At p => option_list (l !! p)
  | Take ps => omap (λ p, l !! p) ps
  | Range lo hi => take (hi - lo) (drop lo l)
  end.

(** Positional selection along axis [k] of an array; [At] drops the axis. *)
Fixpoint isel_array (k : nat) (ix : indexer) (a : ndarray) {struct a} : ndarray :=
  match a with
  | Item x => Item x
  | Axis xs =>
      match k with
      | O =>
          match ix with
          | At p => default (Axis []) (xs !! p)
          | _ => Axis (index_list ix xs)
          end
      | S k' => Axis (isel_array k' ix <$> xs)
      end
  end.

Definition isel_var (d : string) (ix : indexer) (a : DataArray) : DataArray :=
  match list_find (λ x, x = d) (dims a) with
  | None => a
  | Some (k, _) =>
      {| dims := match ix with
                 | At _ => take k (dims a) ++ drop (S k) (dims a)
                 | _ => dims a
                 end;
         values := isel_array k ix (values a) |}
  end.

Definition isel_coord (ix : indexer) (c : coord) : coord :=
  match c with
  | Point l => Point l
  | Index ls =>
      match ix with
      | At p => from_option Point (Index []) (ls !! p)
      | _ => Index (index_list ix ls)
      end
  end.

(** [Dataset.isel] along the dimension [d]. *)
Definition isel (d : string) (ix : indexer) (ds : Dataset) : Dataset :=
  {| coords := alter (isel_coord ix) d (coords ds);
     data_vars := isel_var d ix <$> data_vars ds |}.

(** *** Label queries *)

(** The positions at which [l] occurs in an index whose first label is at
    position [n]. *)
Fixpoint positions_from (n : nat) (l : label) (idx : list label) : list nat :=
  match idx with
  | [] => []
  | x :: rest =>
      if decide (x = l) then n :: positions_from (S n) l rest
      else positions_from (S n) l rest
  end.

Definition positions (l : label) (idx : list label) : list nat :=
  positions_from O l idx.

Definition not_found (name : string) : exn :=
  KeyError ("not all values found in index '" +:+ name +:+ "'").

(** A scalar label: [Index.get_loc].  A label that occurs once gives its
    position, and the selection drops the dimension; a repeated label gives
    all of its positions; an absent one is a [KeyError]. *)
Definition get_loc (name : string) (l : label) (idx : list label) : exn + indexer :=
  match positions l idx with
  | [] => inl (not_found name)
  | [p] => inr (At p)
  | ps => inr (Take ps)
  end.

(** A list of labels: [Index.get_indexer], which refuses an index with
    repeated labels and marks an absent label with -1; [sel] then raises the
    [KeyError] that names the index. *)
Definition get_indexer (name : string) (ls idx : list label) : exn + indexer :=
  if decide (NoDup idx) then
    match mapM (λ l, head (positions l idx)) ls with
    | Some ps => inr (Take ps)
    | None => inl (not_found name)
    end
  else inl InvalidIndexError.

(** The timestamps of a time index; [None] when a label is not a number. *)
Definition as_times (idx : list label) : option (list Timestamp) :=
  mapM (λ l, match l with LNum t => Some t | LStr _ => None end) idx.

(** pandas' [is_monotonic_increasing]: every label is at least the one
    before it. *)
Fixpoint is_monotonic_increasing (ts : list Timestamp) : bool :=
  match ts with
  | [] => true
  | t :: rest =>
      match rest with
      | [] => true
      | u :: _ => (t <=? u) && is_monotonic_increasing rest
      end
  end.

(** The insertion points of [t] in an increasing index: before the first
    label that is at least [t] ([side="left"]), and before the first label
    greater than [t] ([side="right"]). *)
Fixpoint searchsorted_left (ts : list Timestamp) (t : Timestamp) : nat :=
  match ts with
  | [] => O
  | u :: rest => if u <? t then S (searchsorted_left rest t) else O
  end.

Fixpoint searchsorted_right (ts : list Timestamp) (t : Timestamp) : nat :=
  match ts with
  | [] => O
  | u :: rest => if u <=? t then S (searchsorted_right rest t) else O
  end.

(** The two positions a label slice resolves to: the left bound of [start]
    and the right bound of [stop], an absent bound standing for the end of
    the index on its side.  Both ends are inclusive. *)
Definition slice_lo (ts : list Timestamp) (start : option Timestamp) : nat :=
  from_option (searchsorted_left ts) O start.

Definition slice_hi (ts : list Timestamp) (stop : option Timestamp) : nat :=
  from_option (searchsorted_right ts) (length ts) stop.

(** The range of [datetime64[ns]], a count of nanoseconds in 64 bits: the
    timestamps from 1677-09-21 00:12:43.145225 to 2262-04-11 23:47:16.854775,
    which are the counts of microseconds up to [(2^63 - 1) / 1000] on either
    side of 1970-01-01. *)
Definition ns_bound : Z := 9223372036854775.

Definition in_ns_range (t : Timestamp) : bool :=
  (- ns_bound <=? t) && (t <=? ns_bound).

(** The conversion of a slice bound to the type of the time index, which
    raises [OutOfBoundsDatetime] on a timestamp outside the range. *)
Definition cast_bound (b : option Timestamp) : exn + option Timestamp :=
  match b with
  | None => inr None
  | Some t => if in_ns_range t then inr (Some t) else inl (OutOfBoundsDatetime t)
  end.

(** [Index.slice_indexer(start, stop)].  A bound is converted, [start]
    first, and compared with the labels, which fails on a label that is not
    a time. *)
Definition slice_indexer (idx : list label) (start stop : option Timestamp)
  : exn + indexer :=
  match start, stop with
  | None, None => inr (Range O (length idx))
  | _, _ =>
      match as_times idx with
      | None => inl (TypeError "cannot compare a timestamp with a label of the index")
      | Some ts =>
          start ← cast_bound start;
          stop ← cast_bound stop;
          mret (Range (slice_lo ts start) (slice_hi ts stop))
      end
  end.

(** The index of the dimension [name], or the error of a query on a name
    that has none. *)
Definition get_index (name : string) (ds : Dataset) : exn + list label :=
  match coords ds !! name with
  | Some (Index idx) => inr idx
  | _ => inl (KeyError ("'" +:+ name +:+ "' is not a valid dimension or coordinate"))
  end.

(** The two forms of the [pv_ids] argument of [get]. *)
Inductive id_query :=
  | One (pv_id : PvId)
  | Many (pv_ids : list PvId).

(** [ds.sel(pv_id=pv_ids, ts=slice(start, stop))]: each query is resolved
    against its index, then the dataset is selected by position. *)
Definition sel (ds : Dataset) (pv_ids : id_query) (start stop : option Timestamp)
  : exn + Dataset :=
  ids ← get_index "pv_id" ds;
  id_ix ← match pv_ids with
          | One i => get_loc "pv_id" (LStr i) ids
          | Many l => get_indexer "pv_id" (LStr <$> l) ids
          end;
  idx ← get_index "ts" ds;
  ts_ix ← slice_indexer idx start stop;
  mret (isel "ts" ts_ix (isel "pv_id" id_ix ds)).

(** *** Opening and renaming *)

(** The names a dataset knows: its coordinates, its variables and the
    dimensions of its variables. *)
Definition names (ds : Dataset) : list string :=
  (map_to_list (coords ds)).*1 ++ (map_to_list (data_vars ds)).*1
  ++ mjoin (dims <$> (map_to_list (data_vars ds)).*2).

(** [Dataset.rename(name_dict)]: every key has to name something in the
    dataset, and two things may not end up under one name. *)
Definition rename (name_dict : gmap string string) (ds : Dataset) : exn + Dataset :=
  if decide (Forall (λ k, k ∈ names ds) (map_to_list name_dict).*1) then
    let new_name := λ n, default n (name_dict !! n) in
    let cs := prod_map new_name id <$> map_to_list (coords ds) in
    let vs := prod_map new_name
                (λ a, {| dims := new_name <$> dims a; values := values a |})
              <$> map_to_list (data_vars ds) in
    if decide (NoDup (cs.*1 ++ vs.*1)) then
      inr {| coords := list_to_map cs; data_vars := list_to_map vs |}
    else inl (ValueError "the new name conflicts")
  else inl (ValueError "cannot rename a name that is not a variable or dimension in this dataset").

(** [str(label)]. *)
Definition str (l : label) : label :=
  match l with
  | LNum n => LStr (pretty n)
  | LStr s => LStr s
  end.

(** [coord.astype(str)]. *)
Definition astype_str (c : coord) : coord :=
  match c with
  | Point l => Point (str l)
  | Index ls => Index (str <$> ls)
  end.

(** [ds.coords[name]]. *)
Definition get_coord (name : string) (ds : Dataset) : exn + coord :=
  match coords ds !! name with
  | Some c => inr c
  | None => inl (KeyError name)
  end.

(** [ds.coords[name] = c]. *)
Definition set_coord (name : string) (c : coord) (ds : Dataset) : Dataset :=
  {| coords := <[name := c]> (coords ds); data_vars := data_vars ds |}.

(** [coord.values], flat. *)
Definition coord_values (c : coord) : list label :=
  match c with
  | Point l => [l]
  | Index ls => ls
  end.

(** [list(coord.values)], which cannot iterate over the values of a
    coordinate without a dimension. *)
Definition to_list (c : coord) : exn + list label :=
  match c with
  | Point _ => inl (TypeError "iteration over a 0-d array")
  | Index ls => inr ls
  end.

(** [coord.min().values] and [coord.max().values] of a time coordinate, which
    raise on a coordinate without labels. *)
Definition reduce_times (f : Timestamp → Timestamp → Timestamp) (c : coord)
  : exn + Timestamp :=
  match as_times (coord_values c) with
  | None => inl (TypeError "the coordinate does not hold timestamps")
  | Some [] => inl (ValueError "zero-size array to reduction operation")
  | Some (t :: ts) => inr (foldl f t ts)
  end.

Definition coord_min : coord → exn + Timestamp := reduce_times Z.min.
Definition coord_max : coord → exn + Timestamp := reduce_times Z.max.

End xr.

(** ** Python objects and the state of the program *)

(** The values the attributes of a data source hold.  A dataset is held by
    reference: [VDataset h] is the handle of a live dataset object. *)
Inductive value :=
  | VNone
  | VStr (s : string)
  | VPath (p : string)
  | VDict (d : gmap string string)
  | VTime (t : Timestamp)
  | VDataset (h : nat).

(** The state a call runs in: the netCDF files by path, which no operation
    of the data source writes; the live dataset objects, a handle being a
    position in the list; and the instances, an instance being its
    [__dict__] and a reference to it a position in the list. *)
Record world := {
  files : gmap string xr.Dataset;
  datasets : list xr.Dataset;
  objects : list (gmap string value)
}.

(** A call returns a value or raises, and leaves a state either way: what a
    call wrote before it raised stays written. *)
Definition M (A : Type) : Type := world → (exn + A) * world.

#[export] Instance M_ret : MRet M := λ A x w, (inr x, w).

#[export] Instance M_bind : MBind M := λ A B f c w,
  match c w with
  | (inl e, w') => (inl e, w')
  | (inr x, w') => f x w'
  end.

Definition raise {A : Type} (e : exn) : M A := λ w, (inl e, w).

(** The result of a call of a function without effects. *)
Definition lift {A : Type} (r : exn + A) : M A := λ w, (r, w).

(** A step that only changes the state. *)
Definition modify (f : world → world) : M unit := λ w, (inr (), f w).

(** [for x in l: body(x)]. *)
Fixpoint for_each {A : Type} (l : list A) (body : A → M unit) : M unit :=
  match l with
  | [] => mret ()
  | x :: rest => body x;; for_each rest body
  end.

(** [cls.__new__(cls)]: a new instance without attributes. *)
Definition new_object : M nat := λ w,
  (inr (length (objects w)),
   {| files := files w; datasets := datasets w; objects := objects w ++ [∅] |}).

(** [self.__dict__]. *)
Definition get_dict (self : nat) : M (gmap string value) := λ w,
  match objects w !! self with
  | Some d => (inr d, w)
  | None => (inl (AttributeError "__dict__"), w)
  end.

(** [self.name]. *)
Definition getattr (self : nat) (name : string) : M value :=
  d ← get_dict self;
  match d !! name with
  | Some v => mret v
  | None => raise (AttributeError name)
  end.

(** [self.name = v]. *)
Definition setattr (self : nat) (name : string) (v : value) : M unit :=
  d ← get_dict self;
  modify (λ w, {| files := files w; datasets := datasets w;
                  objects := <[self := <[name := v]> d]> (objects w) |}).

(** A new live dataset object. *)
Definition new_dataset (ds : xr.Dataset) : M nat := λ w,
  (inr (length (datasets w)),
   {| files := files w; datasets := datasets w ++ [ds]; objects := objects w |}).

(** The dataset behind a handle. *)
Definition read_dataset (h : nat) : M xr.Dataset := λ w,
  match datasets w !! h with
  | Some ds => (inr ds, w)
  | None => (inl (ValueError "the dataset is closed"), w)
  end.

(** An update in place of the dataset behind a handle. *)
Definition write_dataset (h : nat) (ds : xr.Dataset) : M unit :=
  modify (λ w, {| files := files w; datasets := <[h := ds]> (datasets w);
                  objects := objects w |}).

(** [xr.open_dataset(path)]: the content of the file. *)
Definition open_dataset (path : string) : M xr.Dataset := λ w,
  match files w !! path with
  | Some ds => (inr ds, w)
  | None => (inl (FileNotFoundError path), w)
  end.

(** The attributes by the type of their annotation; an attribute holding a
    value of another type is a [TypeError]. *)
Definition is_str (v : value) : option string :=
  match v with VStr s => Some s | _ => None end.

Definition is_path (v : value) : option string :=
  match v with VPath p => Some p | _ => None end.

Definition is_dict (v : value) : option (gmap string string) :=
  match v with VDict d => Some d | _ => None end.

Definition is_timestamp (v : value) : option (option Timestamp) :=
  match v with VNone => Some None | VTime t => Some (Some t) | _ => None end.

Definition is_dataset (v : value) : option nat :=
  match v with VDataset h => Some h | _ => None end.

Definition expect {A : Type} (proj : value → option A) (what : string) (v : value)
  : exn + A :=
  match proj v with
  | Some x => inr x
  | None => inl (TypeError (what +:+ " expected"))
  end.

Definition as_str (v : value) : M string := lift (expect is_str "str" v).
Definition as_path (v : value) : M string := lift (expect is_path "Path" v).
Definition as_dict (v : value) : M (gmap string string) := lift (expect is_dict "dict" v).
Definition as_timestamp (v : value) : M (option Timestamp) :=
  lift (expect is_timestamp "Timestamp or None" v).
Definition as_dataset (v : value) : M nat := lift (expect is_dataset "Dataset" v).

Definition of_timestamp (ts : option Timestamp) : value :=
  match ts with
  | None => VNone
  | Some t => VTime t
  end.

(** Modelled from the spec: [psp.utils.dates.to_pydatetime] is imported by
    the module but declared elsewhere; [min_ts] and [max_ts] use it to read
    the extreme timestamp of the store as a [Timestamp], which is the same
    count of microseconds. *)
Definition to_pydatetime (t : Timestamp) : Timestamp := t.

(** ** The interface [PvDataSource] *)

(** The five abstract methods, over the type of the references to the
    instances of an implementation.  [pv_ids] is one id or a list of ids;
    an absent [start_ts] or [end_ts] does not bound the window; [blackout]
    is a number of minutes. *)
Module PvDataSource.

Class t (T : Type) := {
  get : T → xr.id_query → option Timestamp → option Timestamp → M xr.Dataset;
  list_pv_ids : T → M (list xr.label);
  min_ts : T → M (option Timestamp);
  max_ts : T → M (option Timestamp);
  without_future : T → Timestamp → Z → M T
}.

End PvDataSource.

(** ** The class [NetcdfPvDataSource] *)

Definition _ID : string := "pv_id".
Definition _TS : string := "ts".

Module NetcdfPvDataSource.

Definition _set_max_ts (self : nat) (ts : option Timestamp) : M unit :=
  setattr self "_max_ts" (of_timestamp ts).

Definition _open (self : nat) : M unit :=
  let rename_map : gmap string string := ∅ in
  id_dim_name ← getattr self "_id_dim_name" ≫= as_str;
  let rename_map :=
    if decide (id_dim_name ≠ _ID) then <[id_dim_name := _ID]> rename_map
    else rename_map in
  timestamp_dim_name ← getattr self "_timestamp_dim_name" ≫= as_str;
  let rename_map :=
    if decide (timestamp_dim_name ≠ _TS) then <[timestamp_dim_name := _TS]> rename_map
    else rename_map in
  (* [rename_map.update(self._rename)]: the entries of [_rename] win. *)
  rename ← getattr self "_rename" ≫= as_dict;
  let rename_map := rename ∪ rename_map in
  path ← getattr self "_path" ≫= as_path;
  opened ← open_dataset path;
  renamed ← lift (xr.rename rename_map opened);
  data ← new_dataset renamed;
  setattr self "_data" (VDataset data);;
  (* [self._data.coords[_ID] = self._data.coords[_ID].astype(str)] *)
  data ← getattr self "_data" ≫= as_dataset;
  ds ← read_dataset data;
  ids ← lift (xr.get_coord _ID ds);
  write_dataset data (xr.set_coord _ID (xr.astype_str ids) ds).

Definition __init__ (self : nat) (filepath : string)
    (timestamp_dim_name id_dim_name : string)
    (rename : option (gmap string string)) : M unit :=
  let rename := default ∅ rename in
  setattr self "_path" (VPath filepath);;
  setattr self "_timestamp_dim_name" (VStr timestamp_dim_name);;
  setattr self "_id_dim_name" (VStr id_dim_name);;
  setattr self "_rename" (VDict rename);;
  _open self;;
  _set_max_ts self None.

(** [NetcdfPvDataSource(filepath, timestamp_dim_name, id_dim_name, rename)]. *)
Definition new (filepath : string) (timestamp_dim_name id_dim_name : string)
    (rename : option (gmap string string)) : M nat :=
  self ← new_object;
  __init__ self filepath timestamp_dim_name id_dim_name rename;;
  mret self.

Definition get (self : nat) (pv_ids : xr.id_query)
    (start_ts end_ts : option Timestamp) : M xr.Dataset :=
  max_ts ← getattr self "_max_ts" ≫= as_timestamp;
  let end_ts := min_timestamp max_ts end_ts in
  data ← getattr self "_data" ≫= as_dataset;
  ds ← read_dataset data;
  lift (xr.sel ds pv_ids start_ts end_ts).

Definition list_pv_ids (self : nat) : M (list xr.label) :=
  data ← getattr self "_data" ≫= as_dataset;
  ds ← read_dataset data;
  ids ← lift (xr.get_coord _ID ds);
  out ← lift (xr.to_list ids);
  match out with
  | xr.LNum _ :: _ => raise AssertionError
  | _ => mret out
  end.

Definition min_ts (self : nat) : M (option Timestamp) :=
  data ← getattr self "_data" ≫= as_dataset;
  ds ← read_dataset data;
  times ← lift (xr.get_coord _TS ds);
  ts ← lift (xr.coord_min times);
  let ts := to_pydatetime ts in
  max_ts ← getattr self "_max_ts" ≫= as_timestamp;
  mret (min_timestamp (Some ts) max_ts).

Definition max_ts (self : nat) : M (option Timestamp) :=
  data ← getattr self "_data" ≫= as_dataset;
  ds ← read_dataset data;
  times ← lift (xr.get_coord _TS ds);
  ts ← lift (xr.coord_max times);
  let ts := to_pydatetime ts in
  max_ts ← getattr self "_max_ts" ≫= as_timestamp;
  mret (min_timestamp (Some ts) max_ts).

Definition __getstate__ (self : nat) : M (gmap string value) :=
  d ← get_dict self;
  match d !! "_data" with
  | None => raise (KeyError "_data")
  | Some _ => mret (delete "_data" d)
  end.

(** The items of a dict have distinct keys, so the order in which the loop
    meets them does not show in its result. *)
Definition __setstate__ (self : nat) (state : gmap string value) : M unit :=
  for_each (map_to_list state) (λ item, setattr self item.1 item.2);;
  _open self.

(** [copy.copy(self)].  The [copy] module copies an instance with the
    interfaces of pickling: the class defines no [__copy__], so [copy] takes
    [self.__reduce_ex__(4)], whose state is [self.__getstate__()], and
    rebuilds the copy with [cls.__new__(cls)] followed by
    [__setstate__(state)]. *)
Definition copy (self : nat) : M nat :=
  state ← __getstate__ self;
  y ← new_object;
  __setstate__ y state;;
  mret y.

Definition without_future (self : nat) (ts : Timestamp) (blackout : Z) : M nat :=
  let now := ts - timedelta_minutes blackout - timedelta_seconds 1 in
  new_ds ← copy self;
  max_ts ← getattr self "_max_ts" ≫= as_timestamp;
  _set_max_ts new_ds (min_timestamp max_ts (Some now));;
  mret new_ds.

(** What pickling keeps of an instance, and the instance unpickling makes
    of it: [cls.__new__(cls)] followed by [__setstate__(state)]. *)
Definition snapshot (self : nat) : M (gmap string value) := __getstate__ self.

Definition restore (state : gmap string value) : M nat :=
  y ← new_object;
  __setstate__ y state;;
  mret y.

End NetcdfPvDataSource.

#[export] Instance NetcdfPvDataSource_PvDataSource : PvDataSource.t nat := {|
  PvDataSource.get := NetcdfPvDataSource.get;
  PvDataSource.list_pv_ids := NetcdfPvDataSource.list_pv_ids;
  PvDataSource.min_ts := NetcdfPvDataSource.min_ts;
  PvDataSource.max_ts := NetcdfPvDataSource.max_ts;
  PvDataSource.without_future := NetcdfPvDataSource.without_future
|}.

(** ** What a state shows of an instance *)

(** The attribute [name] of the instance [self]. *)
Definition attr (w : world) (self : nat) (name : string) : option value :=
  objects w !! self ≫= (.!! name).

(** The handle the instance holds, the dataset behind it and the cutoff. *)
Definition handle_of (w : world) (self : nat) : option nat :=
  attr w self "_data" ≫= is_dataset.

Definition data_of (w : world) (self : nat) : option xr.Dataset :=
  handle_of w self ≫= (datasets w !!.).

Definition cutoff_of (w : world) (self : nat) : option (option Timestamp) :=
  attr w self "_max_ts" ≫= is_timestamp.

(** The two axes of a table: its timestamps and its ids. *)
Definition time_index (ds : xr.Dataset) : option (list Timestamp) :=
  match xr.coords ds !! _TS with
  | Some (xr.Index idx) => xr.as_times idx
  | _ => None
  end.

Definition id_index (ds : xr.Dataset) : option (list xr.label) :=
  match xr.coords ds !! _ID with
  | Some (xr.Index ids) => Some ids
  | _ => None
  end.

(** The timestamps of the observations of a table. *)
Definition table_times (tbl : xr.Dataset) : list Timestamp :=
  default [] (time_index tbl).

(** The ids a query asks for, and the queries all of whose ids are labels
    of the index [ids]. *)
Definition asked (q : xr.id_query) : list xr.label :=
  match q with
  | xr.One i => [xr.LStr i]
  | xr.Many l => xr.LStr <$> l
  end.

Definition known (ids : list xr.label) (q : xr.id_query) : Prop :=
  Forall (λ l, l ∈ ids) (asked q).

(** The id coordinate of the table a query selects: a scalar id drops the
    dimension, a list of ids keeps it. *)
Definition asked_coord (q : xr.id_query) : xr.coord :=
  match q with
  | xr.One i => xr.Point (xr.LStr i)
  | xr.Many l => xr.Index (xr.LStr <$> l)
  end.

(** The dataset [_open] makes of the files [fs] for an instance with the
    attributes [d], as a function: [opened] is what [open_dataset] and
    [rename] give, [canonical] the conversion of the ids to [str]. *)
Definition field {A : Type} (d : gmap string value) (name : string)
    (proj : value → option A) (what : string) : exn + A :=
  match d !! name with
  | None => inl (AttributeError name)
  | Some v => expect proj what v
  end.

Definition opened (fs : gmap string xr.Dataset) (d : gmap string value)
  : exn + xr.Dataset :=
  id_dim_name ← field d "_id_dim_name" is_str "str";
  timestamp_dim_name ← field d "_timestamp_dim_name" is_str "str";
  rename ← field d "_rename" is_dict "dict";
  path ← field d "_path" is_path "Path";
  ds ← from_option inr (inl (FileNotFoundError path)) (fs !! path);
  let rename_map : gmap string string := ∅ in
  let rename_map :=
    if decide (id_dim_name ≠ _ID) then <[id_dim_name := _ID]> rename_map
    else rename_map in
  let rename_map :=
    if decide (timestamp_dim_name ≠ _TS) then <[timestamp_dim_name := _TS]> rename_map
    else rename_map in
  xr.rename (rename ∪ rename_map) ds.

Definition canonical (renamed : xr.Dataset) : exn + xr.Dataset :=
  ids ← xr.get_coord _ID renamed;
  mret (xr.set_coord _ID (xr.astype_str ids) renamed).

Definition reopened (fs : gmap string xr.Dataset) (d : gmap string value)
  : exn + xr.Dataset :=
  opened fs d ≫= canonical.

(** ** Notions the properties are stated with *)

(** [w'] has the files of [w], and its datasets and its instances with
    possibly more of each after them. *)
Definition extends (w w' : world) : Prop :=
  files w' = files w
  ∧ datasets w `prefix_of` datasets w'
  ∧ objects w `prefix_of` objects w'.

(** The timestamps of the window [sel] cuts out of a time index. *)
Definition window (ts : list Timestamp) (start stop : option Timestamp)
  : list Timestamp :=
  take (xr.slice_hi ts stop - xr.slice_lo ts start) (drop (xr.slice_lo ts start) ts).

(** A bound that a slice of the time index takes: no bound, or a timestamp
    of the range of [datetime64[ns]]. *)
Definition in_range (b : option Timestamp) : Prop :=
  match b with
  | None => True
  | Some t => xr.in_ns_range t = true
  end.

(** [m] is the least, respectively the greatest, timestamp of [ts]. *)
Definition least (m : Timestamp) (ts : list Timestamp) : Prop :=
  m ∈ ts ∧ ∀ t, t ∈ ts → m <= t.

Definition greatest (m : Timestamp) (ts : list Timestamp) : Prop :=
  m ∈ ts ∧ ∀ t, t ∈ ts → t <= m.

(** The instance [a] in the state [w1] and the instance [b] in the state
    [w2] answer every read alike. *)
Definition observes_same (w1 : world) (a : nat) (w2 : world) (b : nat) : Prop :=
  (NetcdfPvDataSource.list_pv_ids a w1).1 = (NetcdfPvDataSource.list_pv_ids b w2).1
  ∧ (NetcdfPvDataSource.min_ts a w1).1 = (NetcdfPvDataSource.min_ts b w2).1
  ∧ (NetcdfPvDataSource.max_ts a w1).1 = (NetcdfPvDataSource.max_ts b w2).1
  ∧ ∀ q start_ts end_ts,
      (NetcdfPvDataSource.get a q start_ts end_ts w1).1
      = (NetcdfPvDataSource.get b q start_ts end_ts w2).1.

(** The dataset the files give now for the attributes of [self]: what
    [_open] would make of them. *)
Definition reopening (w : world) (self : nat) : exn + xr.Dataset :=
  match objects w !! self with
  | Some d => reopened (files w) d
  | None => inl (AttributeError "__dict__")
  end.

(** [s] occurs in [msg]. *)
Fixpoint occurs_in (s msg : string) : bool :=
  String.prefix s msg
  || match msg with
     | EmptyString => false
     | String _ rest => occurs_in s rest
     end.

(** ** A store to run the data source on *)

(** Ten days of data for two sites, in a file that names its dimensions
    [ss_id] and [timestamp] and has integer ids.  The day 0 is 2020-01-01,
    which is 18262 days after 1970-01-01. *)
Definition day (n : Z) : Timestamp := (18262 + n) * 86400000000.

(** 2300-01-01, which is after the last timestamp of [datetime64[ns]]. *)
Definition year_2300 : Timestamp := day 102268.

Definition days : list Timestamp := day <$> [0; 1; 2; 3; 4; 5; 6; 7; 8; 9].

Definition pv_file : xr.Dataset :=
  {| xr.coords :=
       {[ "ss_id" := xr.Index [xr.LNum 7; xr.LNum 12];
          "timestamp" := xr.Index (xr.LNum <$> days) ]};
     xr.data_vars :=
       {[ "power" :=
            {| xr.dims := ["ss_id"; "timestamp"];
               xr.values :=
                 xr.Axis [xr.Axis (xr.Item <$> [0; 1; 2; 3; 4; 5; 6; 7; 8; 9]);
                          xr.Axis (xr.Item <$> [10; 11; 12; 13; 14; 15; 16; 17; 18; 19])]
            |} ]} |}.

(** The dataset the data source makes of the file. *)
Definition pv_store : xr.Dataset :=
  {| xr.coords :=
       {[ "pv_id" := xr.Index [xr.LStr "7"; xr.LStr "12"];
          "ts" := xr.Index (xr.LNum <$> days) ]};
     xr.data_vars :=
       {[ "power" :=
            {| xr.dims := ["pv_id"; "ts"];
               xr.values :=
                 xr.Axis [xr.Axis (xr.Item <$> [0; 1; 2; 3; 4; 5; 6; 7; 8; 9]);
                          xr.Axis (xr.Item <$> [10; 11; 12; 13; 14; 15; 16; 17; 18; 19])]
            |} ]} |}.

(** The state before the program starts: the file, and nothing open. *)
Definition disk : world :=
  {| files := {[ "/data/pv.nc" := pv_file ]}; datasets := []; objects := [] |}.

(** The state after
    [NetcdfPvDataSource("/data/pv.nc", timestamp_dim_name="timestamp", id_dim_name="ss_id")],
    which is the instance 0, and the attributes of that instance. *)
Definition started : world :=
  (NetcdfPvDataSource.new "/data/pv.nc" "timestamp" "ss_id" None disk).2.

Definition started_dict : gmap string value :=
  {[ "_path" := VPath "/data/pv.nc";
     "_timestamp_dim_name" := VStr "timestamp";
     "_id_dim_name" := VStr "ss_id";
     "_rename" := VDict ∅;
     "_data" := VDataset 0;
     "_max_ts" := VNone ]}.

(** The state after [without_future(day 4, blackout=60)] on the instance 0,
    which makes the instance 1, and the cutoff of that instance. *)
Definition derived : world :=
  (NetcdfPvDataSource.without_future 0 (day 4) 60 started).2.

Definition derived_cutoff : Timestamp :=
  day 4 - timedelta_minutes 60 - timedelta_seconds 1.

(** The state after [without_future(day 20)] on the instance 0, a cutoff
    after the last day of the store. *)
Definition late : world :=
  (NetcdfPvDataSource.without_future 0 (day 20) 0 started).2.

(** The table of the site 12 from day 2 to day 4. *)
Definition site12_days_2_to_4 : xr.Dataset :=
  {| xr.coords :=
       {[ "pv_id" := xr.Index [xr.LStr "12"];
          "ts" := xr.Index (xr.LNum <$> [day 2; day 3; day 4]) ]};
     xr.data_vars :=
       {[ "power" := {| xr.dims := ["pv_id"; "ts"];
                        xr.values := xr.Axis [xr.Axis (xr.Item <$> [12; 13; 14])] |} ]} |}.

(** ** Further notions *)

(** A call that leaves the state as it finds it, whether it returns or
    raises. *)
Definition reads_only {A : Type} (c : M A) : Prop := ∀ w, (c w).2 = w.

(** The renaming [_open] passes to [Dataset.rename], as a function of the
    three attributes it is built from. *)
Definition rename_map_of (id_dim_name timestamp_dim_name : string)
    (rename : gmap string string) : gmap string string :=
  let rename_map : gmap string string := ∅ in
  let rename_map :=
    if decide (id_dim_name ≠ _ID) then <[id_dim_name := _ID]> rename_map
    else rename_map in
  let rename_map :=
    if decide (timestamp_dim_name ≠ _TS) then <[timestamp_dim_name := _TS]> rename_map
    else rename_map in
  rename ∪ rename_map.

(** A label that is a string. *)
Definition is_LStr (l : xr.label) : Prop :=
  match l with
  | xr.LStr _ => True
  | xr.LNum _ => False
  end.

(** The attributes [__init__] sets before it opens the file. *)
Definition configuration (filepath timestamp_dim_name id_dim_name : string)
    (rename : option (gmap string string)) : gmap string value :=
  <["_rename" := VDict (default ∅ rename)]>
    (<["_id_dim_name" := VStr id_dim_name]>
       (<["_timestamp_dim_name" := VStr timestamp_dim_name]>
          (<["_path" := VPath filepath]> ∅))).

(** ** Further states to run the data source on *)

(** The state [started] after the file has been removed. *)
Definition unplugged : world :=
  {| files := ∅; datasets := datasets started; objects := objects started |}.

(** A file that has the names [ts] and [pv_id] already, and nothing open. *)
Definition std_disk : world :=
  {| files := {[ "/data/std.nc" := pv_store ]}; datasets := []; objects := [] |}.

(** The state after [without_future(day (-3))] on the instance 0, a cutoff
    before the first day of the store, and the cutoff of the instance 1. *)
Definition early : world :=
  (NetcdfPvDataSource.without_future 0 (day (-3)) 0 started).2.

Definition early_cutoff : Timestamp :=
  day (-3) - timedelta_minutes 0 - timedelta_seconds 1.

(** What pickling keeps of the instance 0 of [started]. *)
Definition started_snapshot : gmap string value :=
  {[ "_path" := VPath "/data/pv.nc";
     "_timestamp_dim_name" := VStr "timestamp";
     "_id_dim_name" := VStr "ss_id";
     "_rename" := VDict ∅;
     "_max_ts" := VNone ]}.

(** * Properties *)

Import NetcdfPvDataSource.

(** ** Bounds *)

Lemma below_min_timestamp (t : Timestamp) (a b : option Timestamp) :
  below t (min_timestamp a b) <-> below t a /\ below t b.
Proof. destruct a, b; simpl; lia. Qed.

(** ** Running a call *)

Lemma run_bind {A B : Type} (c : M A) (f : A → M B) (w : world) :
  (c ≫= f) w =
  match c w with
  | (inl e, w') => (inl e, w')
  | (inr x, w') => f x w'
  end.
Proof. reflexivity. Qed.

Lemma run_get_dict (w : world) (self : nat) (d : gmap string value) :
  objects w !! self = Some d → get_dict self w = (inr d, w).
Proof. intros H. unfold get_dict. by rewrite H. Qed.

Lemma run_getattr (w : world) (self : nat) (d : gmap string value) (name : string) :
  objects w !! self = Some d →
  getattr self name w =
  match d !! name with
  | Some v => (inr v, w)
  | None => (inl (AttributeError name), w)
  end.
Proof.
  intros H. unfold getattr. rewrite run_bind, (run_get_dict _ _ _ H).
  by destruct (d !! name).
Qed.

Lemma run_setattr (w : world) (self : nat) (d : gmap string value)
    (name : string) (v : value) :
  objects w !! self = Some d →
  setattr self name v w =
  (inr (), {| files := files w; datasets := datasets w;
              objects := <[self := <[name := v]> d]> (objects w) |}).
Proof.
  intros H. unfold setattr. by rewrite run_bind, (run_get_dict _ _ _ H).
Qed.

(** Reading a typed attribute is reading the field of the dict. *)
Lemma run_getattr_as {A : Type} (w : world) (self : nat) (d : gmap string value)
    (name : string) (proj : value → option A) (what : string) :
  objects w !! self = Some d →
  (getattr self name ≫= λ v, lift (expect proj what v)) w = (field d name proj what, w).
Proof.
  intros H. rewrite run_bind, (run_getattr _ _ _ _ H). unfold field.
  by destruct (d !! name).
Qed.

Lemma objects_insert_lookup (w : world) (self : nat) (d d' : gmap string value) :
  objects w !! self = Some d → <[self := d']> (objects w) !! self = Some d'.
Proof.
  intros H. apply list_lookup_insert_eq. by eapply lookup_lt_Some.
Qed.

(** [_open] allocates one dataset, stores its handle in [_data], and
    converts the ids of that dataset in place; when the files do not give a
    dataset for the attributes it raises before it writes.  *)
Lemma run_open (w : world) (self : nat) (d : gmap string value) :
  objects w !! self = Some d →
  _open self w =
  match opened (files w) d with
  | inl e => (inl e, w)
  | inr renamed =>
      let objs := <[self := <["_data" := VDataset (length (datasets w))]> d]> (objects w) in
      match canonical renamed with
      | inl e => (inl e, {| files := files w; datasets := datasets w ++ [renamed];
                            objects := objs |})
      | inr ds => (inr (), {| files := files w; datasets := datasets w ++ [ds];
                              objects := objs |})
      end
  end.
Proof.
  intros H. unfold _open, opened, as_str, as_dict, as_path, as_dataset.
  rewrite run_bind, (run_getattr_as _ _ _ _ _ _ H).
  destruct (field d "_id_dim_name" is_str "str") as [e|id_dim]; [done|]. simpl.
  rewrite run_bind, (run_getattr_as _ _ _ _ _ _ H).
  destruct (field d "_timestamp_dim_name" is_str "str") as [e|ts_dim]; [done|]. simpl.
  rewrite run_bind, (run_getattr_as _ _ _ _ _ _ H).
  destruct (field d "_rename" is_dict "dict") as [e|ren]; [done|]. simpl.
  rewrite run_bind, (run_getattr_as _ _ _ _ _ _ H).
  destruct (field d "_path" is_path "Path") as [e|path]; [done|]. simpl.
  rewrite run_bind. unfold open_dataset at 1.
  destruct (files w !! path) as [raw|]; [|done]. simpl.
  rewrite run_bind. unfold lift at 1.
  match goal with |- context [xr.rename ?m raw] => destruct (xr.rename m raw) as [e|renamed] end;
    [done|].
  rewrite run_bind. unfold new_dataset at 1.
  rewrite run_bind.
  erewrite run_setattr by exact H.
  set (objs := <[self := _]> (objects w)).
  rewrite run_bind.
  erewrite run_getattr_as by (simpl; by eapply objects_insert_lookup).
  unfold field. rewrite lookup_insert_eq. simpl.
  rewrite run_bind. unfold read_dataset at 1. simpl.
  rewrite lookup_app_r, Nat.sub_diag by done. simpl.
  rewrite run_bind. unfold lift at 1, canonical.
  destruct (xr.get_coord _ID renamed) as [e|ids]; [done|]. simpl.
  unfold write_dataset, modify. simpl.
  do 3 f_equal.
  rewrite insert_app_r_alt, Nat.sub_diag by done. done.
Qed.

(** The loop of [__setstate__] writes the items into the dict of [self]. *)
Lemma run_for_each_setattr (l : list (string * value)) (w : world) (self : nat)
    (d : gmap string value) :
  objects w !! self = Some d →
  for_each l (λ item, setattr self item.1 item.2) w =
  (inr (), {| files := files w; datasets := datasets w;
              objects := <[self := foldl (λ d item, <[item.1 := item.2]> d) d l]>
                           (objects w) |}).
Proof.
  revert w d. induction l as [|[k v] l IH]; intros w d H; simpl.
  - rewrite list_insert_id by done. by destruct w.
  - rewrite run_bind. erewrite run_setattr by exact H.
    erewrite IH by (simpl; by eapply objects_insert_lookup).
    simpl. by rewrite list_insert_insert_eq.
Qed.

Lemma foldl_insert_items (l : list (string * value)) (d : gmap string value) :
  NoDup l.*1 →
  foldl (λ d item, <[item.1 := item.2]> d) d l = list_to_map l ∪ d.
Proof.
  revert d. induction l as [|[k v] l IH]; intros d Hnd.
  - simpl. by rewrite (left_id_L ∅ (∪)).
  - rewrite fmap_cons in Hnd. apply NoDup_cons in Hnd as [Hk Hnd].
    simpl. rewrite IH by done.
    rewrite <- insert_union_l. symmetry. apply insert_union_r.
    by apply not_elem_of_list_to_map_1.
Qed.

Lemma foldl_insert_state (state : gmap string value) :
  foldl (λ d item, <[item.1 := item.2]> d) ∅ (map_to_list state) = state.
Proof.
  rewrite foldl_insert_items by apply NoDup_fst_map_to_list.
  by rewrite list_to_map_to_list, (right_id_L ∅ (∪)).
Qed.

(** The attributes [_open] reads are not [_data]. *)
Lemma field_insert_ne {A : Type} (d : gmap string value) (name other : string)
    (v : value) (proj : value → option A) (what : string) :
  other ≠ name → field (<[other := v]> d) name proj what = field d name proj what.
Proof. intros H. unfold field. by rewrite lookup_insert_ne. Qed.

Lemma field_delete_ne {A : Type} (d : gmap string value) (name other : string)
    (proj : value → option A) (what : string) :
  other ≠ name → field (delete other d) name proj what = field d name proj what.
Proof. intros H. unfold field. by rewrite lookup_delete_ne. Qed.

Lemma opened_delete_data (fs : gmap string xr.Dataset) (d : gmap string value) :
  opened fs (delete "_data" d) = opened fs d.
Proof. unfold opened. by rewrite !field_delete_ne. Qed.

Lemma opened_insert (fs : gmap string xr.Dataset) (d : gmap string value)
    (name : string) (v : value) :
  name = "_data" ∨ name = "_max_ts" →
  opened fs (<[name := v]> d) = opened fs d.
Proof. intros [-> | ->]; unfold opened; by rewrite !field_insert_ne. Qed.

Lemma reopened_insert (fs : gmap string xr.Dataset) (d : gmap string value)
    (name : string) (v : value) :
  name = "_data" ∨ name = "_max_ts" →
  reopened fs (<[name := v]> d) = reopened fs d.
Proof. intros H. unfold reopened. by rewrite opened_insert. Qed.

(** Rebuilding an instance from a state: a new object with the items of the
    state, opened again on the files. *)
Lemma run_restore (w : world) (state : gmap string value) :
  restore state w =
  let y := length (objects w) in
  match opened (files w) state with
  | inl e => (inl e, {| files := files w; datasets := datasets w;
                        objects := objects w ++ [state] |})
  | inr renamed =>
      let objs := objects w ++ [<["_data" := VDataset (length (datasets w))]> state] in
      match canonical renamed with
      | inl e => (inl e, {| files := files w; datasets := datasets w ++ [renamed];
                            objects := objs |})
      | inr ds => (inr y, {| files := files w; datasets := datasets w ++ [ds];
                             objects := objs |})
      end
  end.
Proof.
  unfold restore, __setstate__. rewrite run_bind. unfold new_object at 1.
  rewrite !run_bind.
  erewrite run_for_each_setattr
    by (simpl; rewrite lookup_app_r, Nat.sub_diag by done; done).
  simpl. rewrite foldl_insert_state.
  rewrite insert_app_r_alt, Nat.sub_diag by done. simpl.
  erewrite run_open by (simpl; rewrite lookup_app_r, Nat.sub_diag by done; done).
  simpl. destruct (opened (files w) state) as [e|renamed]; [done|].
  rewrite insert_app_r_alt, Nat.sub_diag by done. simpl.
  by destruct (canonical renamed).
Qed.

Lemma run_getstate (w : world) (self : nat) (d : gmap string value) :
  objects w !! self = Some d →
  __getstate__ self w =
  match d !! "_data" with
  | None => (inl (KeyError "_data"), w)
  | Some _ => (inr (delete "_data" d), w)
  end.
Proof.
  intros H. unfold __getstate__. rewrite run_bind, (run_get_dict _ _ _ H).
  by destruct (d !! "_data").
Qed.

(** [copy.copy] is a snapshot followed by a restore. *)
Lemma run_copy (w : world) (self : nat) :
  copy self w =
  match snapshot self w with
  | (inl e, w') => (inl e, w')
  | (inr state, w') => restore state w'
  end.
Proof. reflexivity. Qed.

(** ** What the readers return *)

Lemma attr_Some (w : world) (self : nat) (name : string) (v : value) :
  attr w self name = Some v ↔ ∃ d, objects w !! self = Some d ∧ d !! name = Some v.
Proof.
  unfold attr. destruct (objects w !! self) as [d|]; simpl.
  - split; [by exists d | by intros (d' & [= <-] & ?)].
  - split; [done | by intros (d' & ? & ?)].
Qed.

Lemma data_of_Some (w : world) (self : nat) (ds : xr.Dataset) :
  data_of w self = Some ds ↔
  ∃ d h, objects w !! self = Some d ∧ d !! "_data" = Some (VDataset h)
         ∧ datasets w !! h = Some ds.
Proof.
  unfold data_of, handle_of. split.
  - intros H. apply bind_Some in H as (h & H & Hds).
    apply bind_Some in H as (v & Hv & Hh).
    apply attr_Some in Hv as (d & Hd & Hv).
    destruct v; simplify_eq/=. eauto.
  - intros (d & h & Hd & Hv & Hds).
    assert (attr w self "_data" = Some (VDataset h)) as -> by (apply attr_Some; eauto).
    done.
Qed.

Lemma cutoff_of_Some (w : world) (self : nat) (c : option Timestamp) :
  cutoff_of w self = Some c ↔
  ∃ d, objects w !! self = Some d ∧ d !! "_max_ts" = Some (of_timestamp c).
Proof.
  unfold cutoff_of. split.
  - intros H. apply bind_Some in H as (v & Hv & Hc).
    apply attr_Some in Hv as (d & Hd & Hv).
    exists d. split; [done|]. destruct v; simplify_eq/=; done.
  - intros (d & Hd & Hv).
    assert (attr w self "_max_ts" = Some (of_timestamp c)) as -> by (apply attr_Some; eauto).
    by destruct c.
Qed.

Lemma field_Some {A : Type} (d : gmap string value) (name : string) (v : value)
    (proj : value → option A) (what : string) (x : A) :
  d !! name = Some v → proj v = Some x → field d name proj what = inr x.
Proof. intros Hv Hx. unfold field, expect. by rewrite Hv, Hx. Qed.

Lemma is_timestamp_of_timestamp (c : option Timestamp) :
  is_timestamp (of_timestamp c) = Some c.
Proof. by destruct c. Qed.

(** The dataset of an open instance, as the readers reach it. *)
Lemma run_data (w : world) (self : nat) (ds : xr.Dataset) {A : Type}
    (k : xr.Dataset → M A) :
  data_of w self = Some ds →
  ((getattr self "_data" ≫= as_dataset) ≫= λ data, read_dataset data ≫= k) w = k ds w.
Proof.
  intros H. apply data_of_Some in H as (d & h & Hd & Hv & Hds).
  rewrite run_bind. unfold as_dataset.
  rewrite (run_getattr_as _ _ _ _ _ _ Hd), (field_Some _ _ _ _ _ h Hv) by done.
  rewrite run_bind. unfold read_dataset. by rewrite Hds.
Qed.

Lemma run_cutoff (w : world) (self : nat) (c : option Timestamp) {A : Type}
    (k : option Timestamp → M A) :
  cutoff_of w self = Some c →
  ((getattr self "_max_ts" ≫= as_timestamp) ≫= k) w = k c w.
Proof.
  intros H. apply cutoff_of_Some in H as (d & Hd & Hv).
  rewrite run_bind. unfold as_timestamp.
  rewrite (run_getattr_as _ _ _ _ _ _ Hd).
  by rewrite (field_Some _ _ _ _ _ c Hv) by apply is_timestamp_of_timestamp.
Qed.

Lemma run_get (w : world) (self : nat) (ds : xr.Dataset) (c : option Timestamp)
    (q : xr.id_query) (start_ts end_ts : option Timestamp) :
  data_of w self = Some ds → cutoff_of w self = Some c →
  get self q start_ts end_ts w = (xr.sel ds q start_ts (min_timestamp c end_ts), w).
Proof.
  intros Hds Hc. unfold get. rewrite (run_cutoff _ _ _ _ Hc).
  by rewrite (run_data _ _ _ _ Hds).
Qed.

Lemma run_list_pv_ids (w : world) (self : nat) (ds : xr.Dataset) :
  data_of w self = Some ds →
  list_pv_ids self w =
  (ids ← xr.get_coord _ID ds;
   out ← xr.to_list ids;
   match out with
   | xr.LNum _ :: _ => inl AssertionError
   | _ => inr out
   end, w).
Proof.
  intros Hds. unfold list_pv_ids. rewrite (run_data _ _ _ _ Hds).
  rewrite run_bind. unfold lift at 1.
  destruct (xr.get_coord _ID ds) as [e|ids]; [done|]. simpl.
  rewrite run_bind. unfold lift.
  destruct (xr.to_list ids) as [e|out]; [done|]. simpl.
  by destruct out as [|[]].
Qed.

Lemma run_min_ts (w : world) (self : nat) (ds : xr.Dataset) (c : option Timestamp) :
  data_of w self = Some ds → cutoff_of w self = Some c →
  min_ts self w =
  (times ← xr.get_coord _TS ds; ts ← xr.coord_min times;
   mret (min_timestamp (Some ts) c), w).
Proof.
  intros Hds Hc. unfold min_ts. rewrite (run_data _ _ _ _ Hds).
  rewrite run_bind. unfold lift at 1.
  destruct (xr.get_coord _TS ds) as [e|times]; [done|]. simpl.
  rewrite run_bind. unfold lift at 1.
  destruct (xr.coord_min times) as [e|ts]; [done|]. simpl.
  by rewrite (run_cutoff _ _ _ _ Hc).
Qed.

Lemma run_max_ts (w : world) (self : nat) (ds : xr.Dataset) (c : option Timestamp) :
  data_of w self = Some ds → cutoff_of w self = Some c →
  max_ts self w =
  (times ← xr.get_coord _TS ds; ts ← xr.coord_max times;
   mret (min_timestamp (Some ts) c), w).
Proof.
  intros Hds Hc. unfold max_ts. rewrite (run_data _ _ _ _ Hds).
  rewrite run_bind. unfold lift at 1.
  destruct (xr.get_coord _TS ds) as [e|times]; [done|]. simpl.
  rewrite run_bind. unfold lift at 1.
  destruct (xr.coord_max times) as [e|ts]; [done|]. simpl.
  by rewrite (run_cutoff _ _ _ _ Hc).
Qed.

(** ** What a call leaves of the state *)

Lemma extends_refl (w : world) : extends w w.
Proof. by repeat split. Qed.

Lemma extends_app (w : world) (dss : list xr.Dataset) (objs : list (gmap string value)) :
  extends w {| files := files w; datasets := datasets w ++ dss;
               objects := objects w ++ objs |}.
Proof. repeat split; simpl; by apply prefix_app_r. Qed.

Ltac solve_extends :=
  repeat split; simpl; first [done | by apply prefix_app_r].

Lemma extends_objects (w w' : world) (self : nat) (d : gmap string value) :
  extends w w' → objects w !! self = Some d → objects w' !! self = Some d.
Proof. intros (_ & _ & H) Hd. by eapply prefix_lookup_Some. Qed.

Lemma extends_data_of (w w' : world) (self : nat) (ds : xr.Dataset) :
  extends w w' → data_of w self = Some ds → data_of w' self = Some ds.
Proof.
  intros Hext H. apply data_of_Some in H as (d & h & Hd & Hv & Hds).
  apply data_of_Some. exists d, h. split; [by eapply extends_objects|].
  split; [done|]. destruct Hext as (_ & H & _). by eapply prefix_lookup_Some.
Qed.

Lemma extends_cutoff_of (w w' : world) (self : nat) (c : option Timestamp) :
  extends w w' → cutoff_of w self = Some c → cutoff_of w' self = Some c.
Proof.
  intros Hext H. apply cutoff_of_Some in H as (d & Hd & Hv).
  apply cutoff_of_Some. exists d. split; [by eapply extends_objects | done].
Qed.

(** The derived instance of [without_future]: a new object with the
    attributes of [self], a handle of its own on the dataset opened again
    from the files, and the narrowed cutoff. *)
Lemma run_without_future (w : world) (self : nat) (d : gmap string value)
    (c : option Timestamp) (ds : xr.Dataset) (ts : Timestamp) (blackout : Z) :
  objects w !! self = Some d →
  is_Some (d !! "_data") →
  d !! "_max_ts" = Some (of_timestamp c) →
  reopened (files w) d = inr ds →
  without_future self ts blackout w =
  (inr (length (objects w)),
   {| files := files w;
      datasets := datasets w ++ [ds];
      objects := objects w ++
        [<["_max_ts" := of_timestamp (min_timestamp c
             (Some (ts - timedelta_minutes blackout - timedelta_seconds 1)))]>
           (<["_data" := VDataset (length (datasets w))]> d)] |}).
Proof.
  intros Hd [v0 Hv0] Hc Hre. unfold without_future.
  rewrite run_bind, run_copy. unfold snapshot.
  rewrite (run_getstate _ _ _ Hd), Hv0, run_restore. simpl.
  unfold reopened in Hre. rewrite opened_delete_data.
  destruct (opened (files w) d) as [e|renamed]; [done|]. simpl in Hre.
  rewrite Hre. rewrite insert_delete_eq.
  rewrite run_bind. unfold as_timestamp.
  erewrite run_getattr_as by (simpl; by apply lookup_app_l_Some).
  rewrite (field_Some _ _ _ _ _ c Hc) by apply is_timestamp_of_timestamp.
  rewrite run_bind. unfold _set_max_ts.
  erewrite run_setattr by (simpl; rewrite lookup_app_r, Nat.sub_diag by done; done).
  simpl. by rewrite insert_app_r_alt, Nat.sub_diag by done.
Qed.

(** Whatever [without_future] does, and whether it returns or raises, it
    only adds to the state. *)
Lemma without_future_extends (w : world) (self : nat) (ts : Timestamp) (blackout : Z) :
  extends w (without_future self ts blackout w).2.
Proof.
  unfold without_future. rewrite run_bind, run_copy. unfold snapshot.
  destruct (objects w !! self) as [d|] eqn:Hd.
  - rewrite (run_getstate _ _ _ Hd).
    destruct (d !! "_data") as [v0|]; [|apply extends_refl].
    rewrite run_restore. simpl.
    destruct (opened (files w) (delete "_data" d)) as [e|renamed].
    { solve_extends. }
    destruct (canonical renamed) as [e|ds].
    { solve_extends. }
    rewrite run_bind. unfold as_timestamp.
    erewrite run_getattr_as by (simpl; by apply lookup_app_l_Some).
    destruct (field d "_max_ts" is_timestamp "Timestamp or None") as [e|c].
    { solve_extends. }
    rewrite run_bind. unfold _set_max_ts.
    erewrite run_setattr by (simpl; rewrite lookup_app_r, Nat.sub_diag by done; done).
    simpl. rewrite insert_app_r_alt, Nat.sub_diag by done.
    solve_extends.
  - unfold __getstate__, get_dict. rewrite run_bind, Hd. apply extends_refl.
Qed.

(** ** Label slices on an increasing index *)

Lemma as_times_Some (idx : list xr.label) (ts : list Timestamp) :
  xr.as_times idx = Some ts ↔ idx = xr.LNum <$> ts.
Proof.
  unfold xr.as_times. rewrite mapM_Some. split.
  - induction 1 as [|[n|s] t idx ts Hx _ IH]; simplify_eq/=; by f_equal.
  - intros ->. induction ts; constructor; done.
Qed.

Lemma monotonic_cons (t : Timestamp) (ts : list Timestamp) :
  xr.is_monotonic_increasing (t :: ts) = true →
  Forall (λ u, t <= u) ts ∧ xr.is_monotonic_increasing ts = true.
Proof.
  revert t. induction ts as [|u ts IH]; intros t H; [done|].
  change (((t <=? u) && xr.is_monotonic_increasing (u :: ts)) = true) in H.
  apply andb_true_iff in H as [Htu H]. apply Z.leb_le in Htu.
  split; [|done]. destruct (IH _ H) as [Hu _]. constructor; [done|].
  eapply Forall_impl; [exact Hu|]. simpl. lia.
Qed.

Lemma searchsorted_left_take (ts : list Timestamp) (x : Timestamp) :
  Forall (λ u, u < x) (take (xr.searchsorted_left ts x) ts).
Proof.
  induction ts as [|u ts IH]; simpl; [done|].
  destruct (Z.ltb_spec u x); simpl; [by constructor | done].
Qed.

Lemma searchsorted_left_drop (ts : list Timestamp) (x : Timestamp) :
  xr.is_monotonic_increasing ts = true →
  Forall (λ u, x <= u) (drop (xr.searchsorted_left ts x) ts).
Proof.
  induction ts as [|u ts IH]; intros H; [done|].
  apply monotonic_cons in H as [Hu H]. simpl.
  destruct (Z.ltb_spec u x); simpl; [by apply IH|].
  constructor; [done|]. eapply Forall_impl; [exact Hu|]. simpl. lia.
Qed.

Lemma searchsorted_right_take (ts : list Timestamp) (x : Timestamp) :
  Forall (λ u, u <= x) (take (xr.searchsorted_right ts x) ts).
Proof.
  induction ts as [|u ts IH]; simpl; [done|].
  destruct (Z.leb_spec u x); simpl; [by constructor | done].
Qed.

Lemma searchsorted_right_drop (ts : list Timestamp) (x : Timestamp) :
  xr.is_monotonic_increasing ts = true →
  Forall (λ u, x < u) (drop (xr.searchsorted_right ts x) ts).
Proof.
  induction ts as [|u ts IH]; intros H; [done|].
  apply monotonic_cons in H as [Hu H]. simpl.
  destruct (Z.leb_spec u x); simpl; [by apply IH|].
  constructor; [done|]. eapply Forall_impl; [exact Hu|]. simpl. lia.
Qed.

Lemma slice_lo_take (ts : list Timestamp) (start : option Timestamp) (i : nat)
    (t : Timestamp) :
  ts !! i = Some t → (i < xr.slice_lo ts start)%nat → ¬ above t start.
Proof.
  intros Hi Hlt. destruct start as [x|]; simpl in *; [|lia].
  pose proof (searchsorted_left_take ts x) as H.
  rewrite Forall_lookup in H. specialize (H i t).
  rewrite lookup_take_lt in H by done. specialize (H Hi). simpl in H. lia.
Qed.

Lemma slice_lo_drop (ts : list Timestamp) (start : option Timestamp) (i : nat)
    (t : Timestamp) :
  xr.is_monotonic_increasing ts = true →
  ts !! i = Some t → (xr.slice_lo ts start <= i)%nat → above t start.
Proof.
  intros Hs Hi Hle. destruct start as [x|]; simpl in *; [|done].
  pose proof (searchsorted_left_drop ts x Hs) as H.
  rewrite Forall_lookup in H. apply (H (i - xr.searchsorted_left ts x)%nat).
  rewrite lookup_drop. rewrite <- Hi. f_equal. lia.
Qed.

Lemma slice_hi_take (ts : list Timestamp) (stop : option Timestamp) (i : nat)
    (t : Timestamp) :
  ts !! i = Some t → (i < xr.slice_hi ts stop)%nat → below t stop.
Proof.
  intros Hi Hlt. destruct stop as [x|]; simpl in *; [|done].
  pose proof (searchsorted_right_take ts x) as H.
  rewrite Forall_lookup in H. apply (H i).
  by rewrite lookup_take_lt.
Qed.

Lemma slice_hi_drop (ts : list Timestamp) (stop : option Timestamp) (i : nat)
    (t : Timestamp) :
  xr.is_monotonic_increasing ts = true →
  ts !! i = Some t → (xr.slice_hi ts stop <= i)%nat → ¬ below t stop.
Proof.
  intros Hs Hi Hle. destruct stop as [x|]; simpl in *.
  - pose proof (searchsorted_right_drop ts x Hs) as H.
    rewrite Forall_lookup in H. specialize (H (i - xr.searchsorted_right ts x)%nat t).
    rewrite lookup_drop in H.
    replace (xr.searchsorted_right ts x + (i - xr.searchsorted_right ts x))%nat
      with i in H by lia.
    specialize (H Hi). simpl in H. lia.
  - apply lookup_lt_Some in Hi. lia.
Qed.

(** On an increasing index a label slice selects the labels between its
    bounds, both included, and only those. *)
Lemma elem_of_slice (ts : list Timestamp) (start stop : option Timestamp)
    (t : Timestamp) :
  xr.is_monotonic_increasing ts = true →
  t ∈ take (xr.slice_hi ts stop - xr.slice_lo ts start) (drop (xr.slice_lo ts start) ts)
  ↔ t ∈ ts ∧ above t start ∧ below t stop.
Proof.
  intros Hs. rewrite !list_elem_of_lookup. split.
  - intros [i Hi].
    apply lookup_take_Some in Hi as [Hi Hlt]. rewrite lookup_drop in Hi.
    split; [by eexists|]. split.
    + eapply slice_lo_drop; [done | exact Hi | lia].
    + eapply slice_hi_take; [exact Hi | lia].
  - intros [[i Hi] [Habove Hbelow]].
    assert (xr.slice_lo ts start <= i)%nat as Hlo.
    { destruct (decide (xr.slice_lo ts start <= i)%nat); [done|].
      exfalso. eapply (slice_lo_take ts start); [exact Hi | lia | done]. }
    assert (i < xr.slice_hi ts stop)%nat as Hhi.
    { destruct (decide (i < xr.slice_hi ts stop)%nat); [done|].
      exfalso. eapply (slice_hi_drop ts stop); [done | exact Hi | lia | done]. }
    exists (i - xr.slice_lo ts start)%nat.
    rewrite lookup_take_lt by lia. rewrite lookup_drop. rewrite <- Hi. f_equal. lia.
Qed.

(** ** Id queries *)

Lemma positions_from_absent (n : nat) (l : xr.label) (idx : list xr.label) :
  l ∉ idx → xr.positions_from n l idx = [].
Proof.
  revert n. induction idx as [|x idx IH]; intros n H; simpl; [done|].
  apply not_elem_of_cons in H as [Hx H].
  destruct (decide (x = l)); [done | by apply IH].
Qed.

Lemma positions_from_unique (n : nat) (l : xr.label) (idx : list xr.label) :
  NoDup idx → l ∈ idx →
  ∃ i, xr.positions_from n l idx = [(n + i)%nat] ∧ idx !! i = Some l.
Proof.
  revert n. induction idx as [|x idx IH]; intros n Hnd Hin; [by apply elem_of_nil in Hin|].
  apply NoDup_cons in Hnd as [Hx Hnd]. simpl.
  destruct (decide (x = l)) as [->|Hne].
  - exists O. rewrite positions_from_absent by done. by rewrite Nat.add_0_r.
  - apply elem_of_cons in Hin as [->|Hin]; [done|].
    destruct (IH (S n) Hnd Hin) as (i & -> & Hi).
    exists (S i). split; [f_equal; lia | done].
Qed.

Lemma positions_absent (l : xr.label) (idx : list xr.label) :
  l ∉ idx → xr.positions l idx = [].
Proof. apply positions_from_absent. Qed.

Lemma positions_unique (l : xr.label) (idx : list xr.label) :
  NoDup idx → l ∈ idx → ∃ p, xr.positions l idx = [p] ∧ idx !! p = Some l.
Proof. intros Hnd Hin. apply (positions_from_unique O _ _ Hnd Hin). Qed.

(** A query all of whose ids are labels of an index without repeated labels
    resolves, and selects the coordinate of the ids it asks for. *)
Lemma resolve_known (ids : list xr.label) (q : xr.id_query) :
  NoDup ids → known ids q →
  ∃ ix,
    match q with
    | xr.One i => xr.get_loc _ID (xr.LStr i) ids
    | xr.Many l => xr.get_indexer _ID (xr.LStr <$> l) ids
    end = inr ix
    ∧ xr.isel_coord ix (xr.Index ids) = asked_coord q
    ∧ ∀ l, q = xr.Many l → ∃ ps, ix = xr.Take ps.
Proof.
  intros Hnd Hq. destruct q as [i|l]; unfold known in Hq; simpl in Hq.
  - rewrite Forall_singleton in Hq.
    destruct (positions_unique _ _ Hnd Hq) as (p & Hp & Hi).
    exists (xr.At p). unfold xr.get_loc. rewrite Hp. simpl.
    by rewrite Hi.
  - unfold xr.get_indexer. rewrite decide_True by done.
    assert (∃ ps, mapM (λ l0, head (xr.positions l0 ids)) (xr.LStr <$> l) = Some ps
                  ∧ omap (λ p, ids !! p) ps = xr.LStr <$> l) as (ps & -> & Hps).
    { induction l as [|i l IH]; [by exists []|].
      rewrite fmap_cons in Hq. apply Forall_cons in Hq as [Hi Hq].
      destruct (IH Hq) as (ps & Hm & Hps).
      destruct (positions_unique _ _ Hnd Hi) as (p & Hp & Hip).
      exists (p :: ps). rewrite fmap_cons. split.
      - simpl. rewrite Hp. simpl. by rewrite Hm.
      - simpl. rewrite Hip. f_equal. exact Hps. }
    exists (xr.Take ps). split; [done|]. split; [|by eexists]. simpl. by rewrite Hps.
Qed.

(** A query with an id that is no label of the index raises the
    [KeyError] of the index. *)
Lemma resolve_unknown (ids : list xr.label) (q : xr.id_query) :
  NoDup ids → ¬ known ids q →
  match q with
  | xr.One i => xr.get_loc _ID (xr.LStr i) ids
  | xr.Many l => xr.get_indexer _ID (xr.LStr <$> l) ids
  end = inl (xr.not_found _ID).
Proof.
  intros Hnd Hq. destruct q as [i|l]; unfold known in Hq; simpl in Hq.
  - rewrite Forall_singleton in Hq.
    unfold xr.get_loc. by rewrite positions_absent.
  - unfold xr.get_indexer. rewrite decide_True by done.
    revert Hq. generalize (xr.LStr <$> l). intros ls Hq.
    destruct (mapM _ ls) as [ps|] eqn:Hm; [|done].
    exfalso. apply Hq. apply mapM_Some in Hm. clear Hq.
    induction Hm as [|x p xs ps Hx _ IH]; constructor; [|done].
    destruct (decide (x ∈ ids)) as [|Hx']; [done|].
    by rewrite positions_absent in Hx.
Qed.

(** ** The table [sel] returns *)

Lemma isel_coords_ts (ds : xr.Dataset) (ts_ix id_ix : xr.indexer) :
  xr.coords (xr.isel _TS ts_ix (xr.isel _ID id_ix ds)) !! _TS
  = xr.isel_coord ts_ix <$> xr.coords ds !! _TS.
Proof. simpl. by rewrite lookup_alter_eq, lookup_alter_ne. Qed.

Lemma isel_coords_id (ds : xr.Dataset) (ts_ix id_ix : xr.indexer) :
  xr.coords (xr.isel _TS ts_ix (xr.isel _ID id_ix ds)) !! _ID
  = xr.isel_coord id_ix <$> xr.coords ds !! _ID.
Proof. simpl. by rewrite lookup_alter_ne, lookup_alter_eq. Qed.

Lemma isel_data_vars (ds : xr.Dataset) (ts_ix id_ix : xr.indexer) (name : string) :
  xr.data_vars (xr.isel _TS ts_ix (xr.isel _ID id_ix ds)) !! name
  = xr.isel_var _TS ts_ix <$> (xr.isel_var _ID id_ix <$> xr.data_vars ds !! name).
Proof. simpl. by rewrite !lookup_fmap. Qed.

Lemma time_index_Some (ds : xr.Dataset) (ts : list Timestamp) :
  time_index ds = Some ts ↔ xr.coords ds !! _TS = Some (xr.Index (xr.LNum <$> ts)).
Proof.
  unfold time_index. destruct (xr.coords ds !! _TS) as [[l|idx]|].
  - split; [done | by intros [=]].
  - rewrite as_times_Some. split; [by intros -> | by intros [=]].
  - split; [done | by intros [=]].
Qed.

Lemma id_index_Some (ds : xr.Dataset) (ids : list xr.label) :
  id_index ds = Some ids ↔ xr.coords ds !! _ID = Some (xr.Index ids).
Proof.
  unfold id_index. destruct (xr.coords ds !! _ID) as [[l|idx]|].
  - split; [done | by intros [=]].
  - split; [by intros [= ->] | by intros [= ->]].
  - split; [done | by intros [=]].
Qed.

Lemma cast_bound_in_range (b : option Timestamp) :
  in_range b → xr.cast_bound b = inr b.
Proof. destruct b as [t|]; simpl; [by intros ->|done]. Qed.

Lemma cast_bound_inr (b b' : option Timestamp) :
  xr.cast_bound b = inr b' → b' = b ∧ in_range b.
Proof.
  destruct b as [t|]; simpl; [|by intros [= <-]].
  destruct (xr.in_ns_range t) eqn:Ht; [|done]. by intros [= <-].
Qed.

Lemma in_ns_range_between (a t b : Timestamp) :
  xr.in_ns_range a = true → xr.in_ns_range b = true → a <= t → t <= b →
  xr.in_ns_range t = true.
Proof. unfold xr.in_ns_range. lia. Qed.

(** The slice of a time index, as [slice_indexer] resolves it: for bounds
    of the range of the index it is the range of positions between them,
    and it is nothing else when the call returns. *)
Lemma slice_indexer_times (ts : list Timestamp) (start stop : option Timestamp) :
  in_range start → in_range stop →
  xr.slice_indexer (xr.LNum <$> ts) start stop
  = inr (xr.Range (xr.slice_lo ts start) (xr.slice_hi ts stop)).
Proof.
  intros Hstart Hstop. unfold xr.slice_indexer.
  assert (xr.as_times (xr.LNum <$> ts) = Some ts) as -> by by apply as_times_Some.
  rewrite (cast_bound_in_range _ Hstart), (cast_bound_in_range _ Hstop).
  destruct start, stop; try done. simpl. by rewrite length_fmap.
Qed.

Lemma slice_indexer_inr (ts : list Timestamp) (start stop : option Timestamp)
    (ix : xr.indexer) :
  xr.slice_indexer (xr.LNum <$> ts) start stop = inr ix →
  ix = xr.Range (xr.slice_lo ts start) (xr.slice_hi ts stop)
  ∧ in_range start ∧ in_range stop.
Proof.
  intros Hix.
  assert (in_range start ∧ in_range stop) as [Hstart Hstop].
  { unfold xr.slice_indexer in Hix.
    assert (xr.as_times (xr.LNum <$> ts) = Some ts) as Hts by by apply as_times_Some.
    rewrite Hts in Hix.
    destruct (xr.cast_bound start) as [e|start'] eqn:H1.
    { destruct start; [by destruct stop | done]. }
    destruct (xr.cast_bound stop) as [e|stop'] eqn:H2.
    { destruct stop; [by destruct start | done]. }
    split; [by eapply cast_bound_inr | by eapply cast_bound_inr]. }
  rewrite slice_indexer_times in Hix by done. by injection Hix as <-.
Qed.

(** A bound outside the range makes the slice raise, [start] first. *)
Lemma slice_indexer_start_out (ts : list Timestamp) (t : Timestamp)
    (stop : option Timestamp) :
  xr.in_ns_range t = false →
  xr.slice_indexer (xr.LNum <$> ts) (Some t) stop = inl (OutOfBoundsDatetime t).
Proof.
  intros Ht. unfold xr.slice_indexer.
  assert (xr.as_times (xr.LNum <$> ts) = Some ts) as -> by by apply as_times_Some.
  simpl. by rewrite Ht.
Qed.

Lemma table_times_isel (ds : xr.Dataset) (ts : list Timestamp)
    (start stop : option Timestamp) (id_ix : xr.indexer) :
  time_index ds = Some ts →
  table_times (xr.isel _TS (xr.Range (xr.slice_lo ts start) (xr.slice_hi ts stop))
                 (xr.isel _ID id_ix ds))
  = window ts start stop.
Proof.
  intros Hts. apply time_index_Some in Hts.
  unfold table_times. 
  assert (time_index (xr.isel _TS (xr.Range (xr.slice_lo ts start) (xr.slice_hi ts stop))
                        (xr.isel _ID id_ix ds)) = Some (window ts start stop)) as ->; [|done].
  apply time_index_Some. rewrite isel_coords_ts, Hts. simpl.
  unfold window. by rewrite fmap_take, fmap_drop.
Qed.

(** Whatever the ids, a table that [sel] returns from a store with a time
    index holds the window of that index. *)
Lemma sel_table_times (ds tbl : xr.Dataset) (ts : list Timestamp) (q : xr.id_query)
    (start stop : option Timestamp) :
  time_index ds = Some ts →
  xr.sel ds q start stop = inr tbl →
  table_times tbl = window ts start stop.
Proof.
  intros Hts Hsel. unfold xr.sel in Hsel.
  destruct (xr.get_index "pv_id" ds) as [e|ids]; [done|]. simpl in Hsel.
  destruct (match q with
            | xr.One i => xr.get_loc "pv_id" (xr.LStr i) ids
            | xr.Many l => xr.get_indexer "pv_id" (xr.LStr <$> l) ids
            end) as [e|id_ix]; [done|]. simpl in Hsel.
  unfold xr.get_index in Hsel.
  pose proof (proj1 (time_index_Some _ _) Hts) as Hco. unfold _TS in Hco.
  rewrite Hco in Hsel. simpl in Hsel.
  destruct (xr.slice_indexer _ start stop) as [e|ts_ix] eqn:Hix; [done|].
  apply slice_indexer_inr in Hix as (-> & _ & _). simpl in Hsel.
  injection Hsel as <-. by apply table_times_isel.
Qed.

(** A [sel] that returns has taken bounds of the range of the index. *)
Lemma sel_in_range (ds tbl : xr.Dataset) (ts : list Timestamp) (q : xr.id_query)
    (start stop : option Timestamp) :
  time_index ds = Some ts →
  xr.sel ds q start stop = inr tbl →
  in_range start ∧ in_range stop.
Proof.
  intros Hts Hsel. unfold xr.sel in Hsel.
  destruct (xr.get_index "pv_id" ds) as [e|ids]; [done|]. simpl in Hsel.
  destruct (match q with
            | xr.One i => xr.get_loc "pv_id" (xr.LStr i) ids
            | xr.Many l => xr.get_indexer "pv_id" (xr.LStr <$> l) ids
            end) as [e|id_ix]; [done|]. simpl in Hsel.
  unfold xr.get_index in Hsel.
  pose proof (proj1 (time_index_Some _ _) Hts) as Hco. unfold _TS in Hco.
  rewrite Hco in Hsel. simpl in Hsel.
  destruct (xr.slice_indexer _ start stop) as [e|ts_ix] eqn:Hix; [done|].
  by apply slice_indexer_inr in Hix as (_ & ? & ?).
Qed.

(** A query for known ids and bounds of the range of the index, on a store
    with unique ids and a time index, returns: the table is the positional
    selection of the ids asked for and of the window. *)
Lemma sel_known (ds : xr.Dataset) (ids : list xr.label) (ts : list Timestamp)
    (q : xr.id_query) (start stop : option Timestamp) :
  id_index ds = Some ids → NoDup ids → known ids q →
  time_index ds = Some ts →
  in_range start → in_range stop →
  ∃ id_ix,
    xr.sel ds q start stop
    = inr (xr.isel _TS (xr.Range (xr.slice_lo ts start) (xr.slice_hi ts stop))
             (xr.isel _ID id_ix ds))
    ∧ xr.isel_coord id_ix (xr.Index ids) = asked_coord q
    ∧ ∀ l, q = xr.Many l → ∃ ps, id_ix = xr.Take ps.
Proof.
  intros Hids Hnd Hq Hts Hstart Hstop.
  apply id_index_Some in Hids. apply time_index_Some in Hts.
  destruct (resolve_known ids q Hnd Hq) as (id_ix & Hres & Hco).
  exists id_ix. split; [|done].
  unfold _ID, _TS in *. unfold xr.sel, xr.get_index. rewrite Hids. simpl.
  rewrite Hres. simpl.
  rewrite Hts. simpl. by rewrite slice_indexer_times.
Qed.

(** A query for known ids with a start outside the range of the index
    raises. *)
Lemma sel_start_out (ds : xr.Dataset) (ids : list xr.label) (ts : list Timestamp)
    (q : xr.id_query) (t : Timestamp) (stop : option Timestamp) :
  id_index ds = Some ids → NoDup ids → known ids q →
  time_index ds = Some ts →
  xr.in_ns_range t = false →
  xr.sel ds q (Some t) stop = inl (OutOfBoundsDatetime t).
Proof.
  intros Hids Hnd Hq Hts Ht.
  apply id_index_Some in Hids. apply time_index_Some in Hts.
  destruct (resolve_known ids q Hnd Hq) as (id_ix & Hres & Hco).
  unfold _ID, _TS in *. unfold xr.sel, xr.get_index.
  rewrite Hids. cbn -[xr.slice_indexer].
  rewrite Hres. cbn -[xr.slice_indexer].
  rewrite Hts. cbn -[xr.slice_indexer]. by rewrite slice_indexer_start_out.
Qed.

(** A query with an unknown id raises the [KeyError] of the id index. *)
Lemma sel_unknown (ds : xr.Dataset) (ids : list xr.label) (q : xr.id_query)
    (start stop : option Timestamp) :
  id_index ds = Some ids → NoDup ids → ¬ known ids q →
  xr.sel ds q start stop = inl (xr.not_found _ID).
Proof.
  intros Hids Hnd Hq. apply id_index_Some in Hids.
  pose proof (resolve_unknown ids q Hnd Hq) as Hres.
  unfold _ID in *. unfold xr.sel, xr.get_index. rewrite Hids. simpl.
  by rewrite Hres.
Qed.

(** ** The extreme timestamps of a store *)

Lemma foldl_min_least (t0 : Timestamp) (ts : list Timestamp) :
  least (foldl Z.min t0 ts) (t0 :: ts).
Proof.
  revert t0. induction ts as [|u ts IH]; intros t0; simpl.
  - split; [by left|]. intros t Ht. apply list_elem_of_singleton in Ht. lia.
  - destruct (IH (Z.min t0 u)) as [Hin Hle]. split.
    + apply elem_of_cons in Hin as [->|Hin].
      * destruct (Z.min_spec t0 u) as [[_ ->]|[_ ->]]; [by left | right; by left].
      * by do 2 right.
    + intros t Ht. apply elem_of_cons in Ht as [->|Ht].
      * specialize (Hle (Z.min t0 u)). pose proof (Hle ltac:(by left)). lia.
      * apply elem_of_cons in Ht as [->|Ht].
        -- specialize (Hle (Z.min t0 u)). pose proof (Hle ltac:(by left)). lia.
        -- apply Hle. by right.
Qed.

Lemma foldl_max_greatest (t0 : Timestamp) (ts : list Timestamp) :
  greatest (foldl Z.max t0 ts) (t0 :: ts).
Proof.
  revert t0. induction ts as [|u ts IH]; intros t0; simpl.
  - split; [by left|]. intros t Ht. apply list_elem_of_singleton in Ht. lia.
  - destruct (IH (Z.max t0 u)) as [Hin Hle]. split.
    + apply elem_of_cons in Hin as [->|Hin].
      * destruct (Z.max_spec t0 u) as [[_ ->]|[_ ->]]; [right; by left | by left].
      * by do 2 right.
    + intros t Ht. apply elem_of_cons in Ht as [->|Ht].
      * specialize (Hle (Z.max t0 u)). pose proof (Hle ltac:(by left)). lia.
      * apply elem_of_cons in Ht as [->|Ht].
        -- specialize (Hle (Z.max t0 u)). pose proof (Hle ltac:(by left)). lia.
        -- apply Hle. by right.
Qed.

Lemma result_bind_inr {A B : Type} (x : A) (f : A → exn + B) :
  (inr x ≫= f) = f x.
Proof. reflexivity. Qed.

Lemma reduce_times_cons (f : Timestamp → Timestamp → Timestamp) (t0 : Timestamp)
    (ts : list Timestamp) :
  xr.reduce_times f (xr.Index (xr.LNum <$> t0 :: ts)) = inr (foldl f t0 ts).
Proof.
  unfold xr.reduce_times.
  change (xr.coord_values (xr.Index (xr.LNum <$> t0 :: ts))) with (xr.LNum <$> t0 :: ts).
  by rewrite (proj2 (as_times_Some _ _) eq_refl).
Qed.

(** On a store with a time index that is not empty, [min_ts] and [max_ts]
    return the extreme timestamp of the index combined with the cutoff. *)
Lemma run_min_ts_times (w : world) (self : nat) (ds : xr.Dataset)
    (c : option Timestamp) (ts : list Timestamp) :
  data_of w self = Some ds → cutoff_of w self = Some c →
  time_index ds = Some ts → ts ≠ [] →
  ∃ lo, least lo ts ∧ min_ts self w = (inr (min_timestamp (Some lo) c), w).
Proof.
  intros Hds Hc Hts Hne. destruct ts as [|t0 ts]; [done|].
  exists (foldl Z.min t0 ts). split; [apply foldl_min_least|].
  rewrite (run_min_ts _ _ _ _ Hds Hc). apply time_index_Some in Hts.
  unfold xr.get_coord. rewrite Hts, result_bind_inr.
  unfold xr.coord_min. by rewrite reduce_times_cons.
Qed.

Lemma run_max_ts_times (w : world) (self : nat) (ds : xr.Dataset)
    (c : option Timestamp) (ts : list Timestamp) :
  data_of w self = Some ds → cutoff_of w self = Some c →
  time_index ds = Some ts → ts ≠ [] →
  ∃ hi, greatest hi ts ∧ max_ts self w = (inr (min_timestamp (Some hi) c), w).
Proof.
  intros Hds Hc Hts Hne. destruct ts as [|t0 ts]; [done|].
  exists (foldl Z.max t0 ts). split; [apply foldl_max_greatest|].
  rewrite (run_max_ts _ _ _ _ Hds Hc). apply time_index_Some in Hts.
  unfold xr.get_coord. rewrite Hts, result_bind_inr.
  unfold xr.coord_max. by rewrite reduce_times_cons.
Qed.

(** Two open instances with equal datasets and equal cutoffs answer every
    read alike. *)
Lemma observes_same_intro (w1 w2 : world) (a b : nat) (ds : xr.Dataset)
    (c : option Timestamp) :
  data_of w1 a = Some ds → cutoff_of w1 a = Some c →
  data_of w2 b = Some ds → cutoff_of w2 b = Some c →
  observes_same w1 a w2 b.
Proof.
  intros Hd1 Hc1 Hd2 Hc2. repeat split.
  - by rewrite (run_list_pv_ids _ _ _ Hd1), (run_list_pv_ids _ _ _ Hd2).
  - by rewrite (run_min_ts _ _ _ _ Hd1 Hc1), (run_min_ts _ _ _ _ Hd2 Hc2).
  - by rewrite (run_max_ts _ _ _ _ Hd1 Hc1), (run_max_ts _ _ _ _ Hd2 Hc2).
  - intros q s e. by rewrite (run_get _ _ _ _ _ _ _ Hd1 Hc1), (run_get _ _ _ _ _ _ _ Hd2 Hc2).
Qed.

(** ** The derived instance *)

Lemma handle_of_Some (w : world) (self : nat) (h : nat) :
  handle_of w self = Some h ↔
  ∃ d, objects w !! self = Some d ∧ d !! "_data" = Some (VDataset h).
Proof.
  unfold handle_of. split.
  - intros H. apply bind_Some in H as (v & Hv & Hh).
    apply attr_Some in Hv as (d & Hd & Hv).
    destruct v; simplify_eq/=. eauto.
  - intros (d & Hd & Hv).
    assert (attr w self "_data" = Some (VDataset h)) as -> by (apply attr_Some; eauto).
    done.
Qed.

Lemma data_of_handle (w : world) (self : nat) (ds : xr.Dataset) :
  data_of w self = Some ds →
  ∃ h, handle_of w self = Some h ∧ datasets w !! h = Some ds.
Proof.
  intros H. apply data_of_Some in H as (d & h & Hd & Hv & Hds).
  exists h. split; [apply handle_of_Some; eauto | done].
Qed.

(** [without_future] on an instance that holds a handle and a cutoff, over
    files that open: the call returns a new instance, with a handle of its
    own on the dataset opened from the files and with the narrowed cutoff,
    in a state that keeps what was there. *)
Lemma without_future_result (w : world) (self h : nat) (d : gmap string value)
    (c : option Timestamp) (ds : xr.Dataset) (now : Timestamp) (blackout : Z) :
  objects w !! self = Some d →
  handle_of w self = Some h →
  cutoff_of w self = Some c →
  reopening w self = inr ds →
  ∃ w' d',
    without_future self now blackout w = (inr (length (objects w)), w')
    ∧ extends w w'
    ∧ datasets w' = datasets w ++ [ds]
    ∧ objects w' = objects w ++ [d']
    ∧ d' = <["_max_ts" := of_timestamp (min_timestamp c
               (Some (now - timedelta_minutes blackout - timedelta_seconds 1)))]>
             (<["_data" := VDataset (length (datasets w))]> d)
    ∧ handle_of w' (length (objects w)) = Some (length (datasets w))
    ∧ data_of w' (length (objects w)) = Some ds
    ∧ cutoff_of w' (length (objects w))
      = Some (min_timestamp c
                (Some (now - timedelta_minutes blackout - timedelta_seconds 1))).
Proof.
  intros Hd Hh Hc Hre.
  apply handle_of_Some in Hh as (d0 & Hd0 & Hdata).
  apply cutoff_of_Some in Hc as (d1 & Hd1 & Hcut).
  unfold reopening in Hre. rewrite Hd in Hre. simplify_eq.
  eexists _, _. split.
  { apply (run_without_future w self d c ds); eauto. }
  split; [solve_extends|]. split; [done|]. split; [done|]. split; [done|].
  assert (∀ d', (objects w ++ [d']) !! length (objects w) = Some d') as Hnew.
  { intros d'. by rewrite lookup_app_r, Nat.sub_diag. }
  split.
  { apply handle_of_Some. eexists. split; [apply Hnew|].
    by rewrite lookup_insert_ne, lookup_insert_eq. }
  split.
  { apply data_of_Some. eexists _, _. split; [apply Hnew|].
    split; [by rewrite lookup_insert_ne, lookup_insert_eq|].
    simpl. by rewrite lookup_app_r, Nat.sub_diag. }
  apply cutoff_of_Some. eexists. split; [apply Hnew|].
  by rewrite lookup_insert_eq.
Qed.

(** ** Instances whose dataset is the one the files give

    The properties of [snapshot] and [restore] are about an instance that
    has open the dataset the files give for its attributes.  Every way of
    making an instance makes one of these, as long as the files stay as they
    are: the constructor, [without_future], and [restore]. *)

Lemma new_opens (w w' : world) (filepath timestamp_dim_name id_dim_name : string)
    (rename : option (gmap string string)) (self : nat) :
  new filepath timestamp_dim_name id_dim_name rename w = (inr self, w') →
  ∃ ds,
    data_of w' self = Some ds
    ∧ reopening w' self = inr ds
    ∧ cutoff_of w' self = Some None
    ∧ extends w w'.
Proof.
  unfold new, __init__. rewrite run_bind. unfold new_object at 1.
  set (y := length (objects w)).
  assert (∀ dss d, {| files := files w; datasets := dss; objects := objects w ++ [d] |}.(objects)
                   !! y = Some d) as Hy.
  { intros dss d. simpl. by rewrite lookup_app_r, Nat.sub_diag. }
  assert (∀ d d', <[y := d']> (objects w ++ [d]) = objects w ++ [d']) as Hins.
  { intros d d'. by rewrite insert_app_r_alt, Nat.sub_diag. }
  cbv beta iota. rewrite run_bind.
  do 4 (rewrite run_bind; erewrite run_setattr by apply Hy;
        cbv beta iota; cbn [objects datasets files]; rewrite Hins).
  rewrite !run_bind.
  erewrite run_open by apply Hy. cbn [objects datasets files].
  set (d := <["_rename" := _]> _).
  destruct (opened (files w) d) as [e|renamed] eqn:Hop; [done|].
  destruct (canonical renamed) as [e|ds] eqn:Hcan; [done|].
  cbv beta iota zeta. rewrite Hins. unfold _set_max_ts.
  erewrite run_setattr by apply Hy. cbn [objects datasets files]. rewrite Hins.
  intros [= <- <-]. exists ds.
  split.
  { apply data_of_Some. eexists _, _. split; [apply Hy|].
    split; [by rewrite lookup_insert_ne, lookup_insert_eq|].
    simpl. by rewrite lookup_app_r, Nat.sub_diag. }
  split.
  { unfold reopening. rewrite Hy. simpl.
    rewrite !reopened_insert by auto. unfold reopened. by rewrite Hop. }
  split.
  { apply cutoff_of_Some. eexists. split; [apply Hy|]. by rewrite lookup_insert_eq. }
  solve_extends.
Qed.

Lemma without_future_consistent (w : world) (self h : nat) (c : option Timestamp)
    (ds : xr.Dataset) (now : Timestamp) (blackout : Z) :
  handle_of w self = Some h →
  cutoff_of w self = Some c →
  reopening w self = inr ds →
  ∃ new w',
    without_future self now blackout w = (inr new, w')
    ∧ data_of w' new = Some ds
    ∧ reopening w' new = inr ds.
Proof.
  intros Hh Hc Hre.
  destruct (objects w !! self) as [d|] eqn:Hd;
    [|by unfold reopening in Hre; rewrite Hd in Hre].
  destruct (without_future_result w self h d c ds now blackout Hd Hh Hc Hre)
    as (w' & d' & Hrun & Hext & _ & Hobjs & Hd' & _ & Hds' & _).
  exists (length (objects w)), w'. split; [done|]. split; [done|].
  unfold reopening. rewrite Hobjs, lookup_app_r, Nat.sub_diag by done. simpl.
  subst d'. rewrite !reopened_insert by auto.
  destruct Hext as (-> & _). unfold reopening in Hre. by rewrite Hd in Hre.
Qed.

(** ** The values of a selection *)

Lemma has_rank_Axis (n : nat) (xs : list xr.ndarray) :
  xr.has_rank (S n) (xr.Axis xs) = true ↔ Forall (λ x, xr.has_rank n x = true) xs.
Proof. simpl. rewrite forallb_forall, Forall_forall. by setoid_rewrite list_elem_of_In. Qed.

(** Selecting a list of positions keeps the rank of an array. *)
Lemma has_rank_isel_Take (n k : nat) (ps : list nat) (a : xr.ndarray) :
  xr.has_rank n a = true → xr.has_rank n (xr.isel_array k (xr.Take ps) a) = true.
Proof.
  revert k a. induction n as [|n IH]; intros k [x|xs] H; try done.
  apply has_rank_Axis in H. destruct k as [|k]; simpl xr.isel_array.
  - apply has_rank_Axis. apply Forall_forall. intros x Hx.
    apply list_elem_of_omap in Hx as (p & _ & Hp).
    rewrite Forall_forall in H. apply H. by eapply list_elem_of_lookup_2.
  - apply has_rank_Axis. apply Forall_fmap. eapply Forall_impl; [exact H|].
    intros x Hx. by apply IH.
Qed.

(** A range that ends where it starts, or before, leaves no measurement
    along its axis. *)
Lemma items_isel_empty (n k lo hi : nat) (a : xr.ndarray) :
  xr.has_rank n a = true → (k < n)%nat → (hi <= lo)%nat →
  xr.items (xr.isel_array k (xr.Range lo hi) a) = [].
Proof.
  revert k a. induction n as [|n IH]; intros k [x|xs] H Hk Hle; try done; [lia|].
  apply has_rank_Axis in H. destruct k as [|k]; simpl xr.isel_array.
  - simpl. by replace (hi - lo)%nat with O by lia.
  - simpl. induction H as [|x xs Hx _ IHxs]; [done|].
    rewrite fmap_cons. simpl. rewrite IH by (done || lia). done.
Qed.

Lemma list_find_lt (d : string) (l : list string) (k : nat) (x : string) :
  list_find (λ y, y = d) l = Some (k, x) → (k < length l)%nat.
Proof. intros H. apply list_find_Some in H as (H & _). by eapply lookup_lt_Some. Qed.

(** A well shaped variable over the time axis has no measurement left once
    a list of ids and an empty range of times are selected. *)
Lemma items_isel_var_empty (a : xr.DataArray) (ps : list nat) (lo hi : nat) :
  xr.well_shaped a = true → _TS ∈ xr.dims a → (hi <= lo)%nat →
  xr.items (xr.values (xr.isel_var _TS (xr.Range lo hi) (xr.isel_var _ID (xr.Take ps) a)))
  = [].
Proof.
  intros Hshape Hin Hle.
  set (a' := xr.isel_var _ID (xr.Take ps) a).
  assert (xr.dims a' = xr.dims a ∧ xr.well_shaped a' = true) as [Hdims Hshape'].
  { unfold a', xr.isel_var. destruct (list_find _ (xr.dims a)) as [[k ?]|]; [|done].
    split; [done|]. unfold xr.well_shaped in *. simpl. by apply has_rank_isel_Take. }
  unfold xr.isel_var.
  destruct (list_find _ (xr.dims a')) as [[k x]|] eqn:Hfind.
  - simpl. eapply items_isel_empty; [exact Hshape' | by eapply list_find_lt | done].
  - exfalso. rewrite Hdims in Hfind. apply list_find_None in Hfind.
    rewrite Forall_forall in Hfind. by apply (Hfind _TS).
Qed.

(** The right bound of a stop before the start is not after the left bound
    of the start. *)
Lemma searchsorted_right_le_left (ts : list Timestamp) (s e : Timestamp) :
  e < s → (xr.searchsorted_right ts e <= xr.searchsorted_left ts s)%nat.
Proof.
  intros Hlt. induction ts as [|u ts IH]; simpl; [done|].
  destruct (Z.leb_spec u e), (Z.ltb_spec u s); lia.
Qed.

(** * The properties of the data source *)

(** C1: every timestamp of a table that [get] returns lies between
    [start_ts] and the smaller of [end_ts] and the effective maximum, which
    is the smaller of the greatest timestamp of the store and the cutoff and
    is what [max_ts] returns; an absent bound does not bound.  The store has
    its timestamps in increasing order. *)
Theorem get_within_bounds (w w' : world) (self : nat) (ds tbl : xr.Dataset)
    (c : option Timestamp) (ts : list Timestamp) (q : xr.id_query)
    (start_ts end_ts : option Timestamp) (t : Timestamp) :
  data_of w self = Some ds →
  cutoff_of w self = Some c →
  time_index ds = Some ts →
  xr.is_monotonic_increasing ts = true →
  get self q start_ts end_ts w = (inr tbl, w') →
  t ∈ table_times tbl →
  ∃ hi,
    greatest hi ts
    ∧ max_ts self w = (inr (min_timestamp (Some hi) c), w)
    ∧ above t start_ts
    ∧ below t (min_timestamp end_ts (min_timestamp (Some hi) c)).
Proof.
  intros Hds Hc Hts Hmono Hget Ht.
  rewrite (run_get _ _ _ _ _ _ _ Hds Hc) in Hget. injection Hget as Hsel _.
  rewrite (sel_table_times _ _ _ _ _ _ Hts Hsel) in Ht.
  apply (elem_of_slice _ _ _ _ Hmono) in Ht as (Hin & Habove & Hbelow).
  assert (ts ≠ []) as Hne by (intros ->; by apply elem_of_nil in Hin).
  destruct (run_max_ts_times _ _ _ _ _ Hds Hc Hts Hne) as (hi & Hhi & Hmax).
  exists hi. repeat split; try done; try apply Hhi.
  apply below_min_timestamp in Hbelow as [Hbc Hbe].
  rewrite !below_min_timestamp. repeat split; try done.
  simpl. by apply Hhi.
Qed.

(** The instance 0 of the ten days store, asked for the site 12 from day 2
    to day 4, returns day 3 among others. *)
Lemma get_within_bounds_witness :
  data_of started 0 = Some pv_store
  ∧ cutoff_of started 0 = Some None
  ∧ time_index pv_store = Some days
  ∧ xr.is_monotonic_increasing days = true
  ∧ get 0 (xr.Many ["12"]) (Some (day 2)) (Some (day 4)) started
    = (inr site12_days_2_to_4, started)
  ∧ day 3 ∈ table_times site12_days_2_to_4
  ∧ ∃ hi,
      greatest hi days
      ∧ max_ts 0 started = (inr (min_timestamp (Some hi) None), started)
      ∧ above (day 3) (Some (day 2))
      ∧ below (day 3) (min_timestamp (Some (day 4)) (min_timestamp (Some hi) None)).
Proof.
  assert (H1 : data_of started 0 = Some pv_store) by (vm_compute; reflexivity).
  assert (H2 : cutoff_of started 0 = Some None) by (vm_compute; reflexivity).
  assert (H3 : time_index pv_store = Some days) by (vm_compute; reflexivity).
  assert (H4 : xr.is_monotonic_increasing days = true) by (vm_compute; reflexivity).
  assert (H5 : get 0 (xr.Many ["12"]) (Some (day 2)) (Some (day 4)) started
               = (inr site12_days_2_to_4, started)) by (vm_compute; reflexivity).
  assert (H6 : day 3 ∈ table_times site12_days_2_to_4) by compute_done.
  repeat (split; [assumption|]).
  exact (get_within_bounds started started 0 pv_store site12_days_2_to_4 None days
           (xr.Many ["12"]) (Some (day 2)) (Some (day 4)) (day 3) H1 H2 H3 H4 H5 H6).
Defined.

(** C2: the instance that [without_future] derives has a [max_ts] that is at
    most [now] less the blackout minutes less one second, so strictly before
    [now] less the blackout, and strictly before [now] itself when the
    blackout is not negative.  The instance holds a handle and a cutoff, and
    the files open on a store with timestamps. *)
Theorem without_future_max_ts (w : world) (self h : nat) (c : option Timestamp)
    (ds : xr.Dataset) (ts : list Timestamp) (now : Timestamp) (blackout : Z) :
  handle_of w self = Some h →
  cutoff_of w self = Some c →
  reopening w self = inr ds →
  time_index ds = Some ts → ts ≠ [] →
  ∃ new w' m,
    without_future self now blackout w = (inr new, w')
    ∧ max_ts new w' = (inr (Some m), w')
    ∧ m <= now - timedelta_minutes blackout - timedelta_seconds 1
    ∧ m < now - timedelta_minutes blackout
    ∧ (0 <= blackout → m < now).
Proof.
  intros Hh Hc Hre Hts Hne.
  destruct (objects w !! self) as [d|] eqn:Hd;
    [|by unfold reopening in Hre; rewrite Hd in Hre].
  destruct (without_future_result w self h d c ds now blackout Hd Hh Hc Hre)
    as (w' & d' & Hrun & _ & _ & _ & _ & _ & Hds' & Hc').
  destruct (run_max_ts_times _ _ _ _ _ Hds' Hc' Hts Hne) as (hi & _ & Hmax).
  set (adj := now - timedelta_minutes blackout - timedelta_seconds 1) in *.
  assert (∃ m, min_timestamp (Some hi) (min_timestamp c (Some adj)) = Some m ∧ m <= adj)
    as (m & Hm & Hle).
  { destruct c as [x|]; simpl; eexists; (split; [done|]); lia. }
  exists (length (objects w)), w', m. rewrite Hmax, Hm.
  unfold adj, timedelta_minutes, timedelta_seconds in *.
  repeat split; try done; lia.
Qed.

(** The instance 0 of the ten days store, at day 4 with a blackout of one
    hour. *)
Lemma without_future_max_ts_witness :
  handle_of started 0 = Some O
  ∧ cutoff_of started 0 = Some None
  ∧ reopening started 0 = inr pv_store
  ∧ time_index pv_store = Some days
  ∧ days ≠ []
  ∧ ∃ new w' m,
      without_future 0 (day 4) 60 started = (inr new, w')
      ∧ max_ts new w' = (inr (Some m), w')
      ∧ m <= day 4 - timedelta_minutes 60 - timedelta_seconds 1
      ∧ m < day 4 - timedelta_minutes 60
      ∧ (0 <= 60 → m < day 4).
Proof.
  assert (H1 : handle_of started 0 = Some O) by (vm_compute; reflexivity).
  assert (H2 : cutoff_of started 0 = Some None) by (vm_compute; reflexivity).
  assert (H3 : reopening started 0 = inr pv_store) by (vm_compute; reflexivity).
  assert (H4 : time_index pv_store = Some days) by (vm_compute; reflexivity).
  assert (H5 : days ≠ []) by (vm_compute; discriminate).
  repeat (split; [assumption|]).
  exact (without_future_max_ts started 0 0 None pv_store days (day 4) 60 H1 H2 H3 H4 H5).
Defined.

(** C3, as the code has it: [without_future] copies the instance through
    [__getstate__] and [__setstate__].  The derived instance is a new
    object that has every attribute of the parent other than [_data] and
    [_max_ts] with the value the parent has, a cutoff of its own, and a
    handle of its own: the store is opened once more, and the new handle is
    on the dataset the files give then, not on the dataset of the parent. *)
Theorem without_future_copy (w : world) (self : nat) (d : gmap string value)
    (c : option Timestamp) (ds0 ds : xr.Dataset) (now : Timestamp) (blackout : Z) :
  objects w !! self = Some d →
  data_of w self = Some ds0 →
  cutoff_of w self = Some c →
  reopening w self = inr ds →
  ∃ new w' d',
    without_future self now blackout w = (inr new, w')
    ∧ objects w !! new = None
    ∧ objects w' !! new = Some d'
    ∧ objects w' !! self = Some d
    ∧ (∀ name, name ≠ "_data" → name ≠ "_max_ts" → d' !! name = d !! name)
    ∧ cutoff_of w' new
      = Some (min_timestamp c
                (Some (now - timedelta_minutes blackout - timedelta_seconds 1)))
    ∧ handle_of w' new = Some (length (datasets w))
    ∧ handle_of w' new ≠ handle_of w' self
    ∧ datasets w' = datasets w ++ [ds]
    ∧ data_of w' new = Some ds
    ∧ data_of w' self = Some ds0.
Proof.
  intros Hd Hds0 Hc Hre.
  destruct (data_of_handle _ _ _ Hds0) as (h & Hh & Hlive).
  destruct (without_future_result w self h d c ds now blackout Hd Hh Hc Hre)
    as (w' & d' & Hrun & Hext & Hdss & Hobjs & Hd' & Hh' & Hds' & Hc').
  exists (length (objects w)), w', d'.
  split; [done|]. split; [by apply lookup_ge_None_2|].
  split; [by rewrite Hobjs, lookup_app_r, Nat.sub_diag|].
  split; [by eapply extends_objects|].
  split.
  { intros name H1 H2. subst d'. by rewrite !lookup_insert_ne. }
  split; [done|]. split; [done|].
  split.
  { rewrite Hh'. intros Heq. symmetry in Heq. apply handle_of_Some in Heq as (d1 & Hd1 & Hv).
    rewrite (extends_objects _ _ _ _ Hext Hd) in Hd1. simplify_eq.
    apply handle_of_Some in Hh as (d2 & Hd2 & Hv2). simplify_eq.
    apply lookup_lt_Some in Hlive. lia. }
  split; [done|]. split; [done|]. by eapply extends_data_of.
Qed.

(** The instance 0 of the ten days store, at day 4 with a blackout of one
    hour: the derived instance is the instance 1. *)
Lemma without_future_copy_witness :
  objects started !! O = Some started_dict
  ∧ data_of started 0 = Some pv_store
  ∧ cutoff_of started 0 = Some None
  ∧ reopening started 0 = inr pv_store
  ∧ ∃ new w' d',
      without_future 0 (day 4) 60 started = (inr new, w')
      ∧ objects started !! new = None
      ∧ objects w' !! new = Some d'
      ∧ objects w' !! O = Some started_dict
      ∧ (∀ name, name ≠ "_data" → name ≠ "_max_ts" → d' !! name = started_dict !! name)
      ∧ cutoff_of w' new
        = Some (min_timestamp None
                  (Some (day 4 - timedelta_minutes 60 - timedelta_seconds 1)))
      ∧ handle_of w' new = Some (length (datasets started))
      ∧ handle_of w' new ≠ handle_of w' 0
      ∧ datasets w' = datasets started ++ [pv_store]
      ∧ data_of w' new = Some pv_store
      ∧ data_of w' 0 = Some pv_store.
Proof.
  assert (H1 : objects started !! O = Some started_dict) by (vm_compute; reflexivity).
  assert (H2 : data_of started 0 = Some pv_store) by (vm_compute; reflexivity).
  assert (H3 : cutoff_of started 0 = Some None) by (vm_compute; reflexivity).
  assert (H4 : reopening started 0 = inr pv_store) by (vm_compute; reflexivity).
  repeat (split; [assumption|]).
  exact (without_future_copy started 0 started_dict None pv_store pv_store (day 4) 60
           H1 H2 H3 H4).
Defined.

(** C3 as the specification states it fails on the ten days store: the
    instance derived from the instance 0 does not hold the handle of its
    parent, and the call leaves one more dataset open than there was. *)
Lemma without_future_shares_handle_counterexample :
  (without_future 0 (day 4) 60 started).1 = inr 1%nat
  ∧ handle_of derived 0 = Some 0%nat
  ∧ handle_of derived 1 = Some 1%nat
  ∧ handle_of derived 1 ≠ handle_of derived 0
  ∧ length (datasets started) = 1%nat
  ∧ length (datasets derived) = 2%nat.
Proof. repeat split; vm_compute; first [reflexivity | discriminate]. Qed.

(** C4: the snapshot of an instance has every attribute of the instance but
    the handle [_data], and the instance restored from it, over files that
    still give the dataset the instance has open, answers [list_pv_ids],
    [min_ts], [max_ts] and every [get] as the instance does, before and
    after the restore. *)
Theorem snapshot_restore_same (w : world) (self : nat) (d : gmap string value)
    (c : option Timestamp) (ds : xr.Dataset) :
  objects w !! self = Some d →
  data_of w self = Some ds →
  cutoff_of w self = Some c →
  reopening w self = inr ds →
  ∃ state y w',
    snapshot self w = (inr state, w)
    ∧ restore state w = (inr y, w')
    ∧ state !! "_data" = None
    ∧ (∀ name, name ≠ "_data" → state !! name = d !! name)
    ∧ observes_same w self w' y
    ∧ observes_same w' self w' y.
Proof.
  intros Hd Hds Hc Hre.
  pose proof Hds as Hds0. apply data_of_Some in Hds0 as (d0 & h & Hd0 & Hv & Hlive).
  pose proof Hc as Hc0. apply cutoff_of_Some in Hc0 as (d1 & Hd1 & Hcut).
  unfold reopening in Hre. rewrite Hd in Hre. simplify_eq.
  set (w' := {| files := files w; datasets := datasets w ++ [ds];
                objects := objects w ++ [<["_data" := VDataset (length (datasets w))]> d] |}).
  exists (delete "_data" d), (length (objects w)), w'.
  split; [by unfold snapshot; rewrite (run_getstate _ _ _ Hd), Hv|].
  split.
  { rewrite run_restore. simpl. unfold reopened in Hre. rewrite opened_delete_data.
    destruct (opened (files w) d) as [e|renamed]; [done|]. simpl in Hre. rewrite Hre.
    by rewrite insert_delete_eq. }
  split; [apply lookup_delete_eq|].
  split; [by intros name Hne; apply lookup_delete_ne|].
  assert (extends w w') as Hext by solve_extends.
  assert (data_of w' (length (objects w)) = Some ds) as Hds'.
  { apply data_of_Some. eexists _, _.
    split; [by simpl; rewrite lookup_app_r, Nat.sub_diag|].
    split; [by rewrite lookup_insert_eq|].
    simpl. by rewrite lookup_app_r, Nat.sub_diag. }
  assert (cutoff_of w' (length (objects w)) = Some c) as Hc'.
  { apply cutoff_of_Some. eexists.
    split; [by simpl; rewrite lookup_app_r, Nat.sub_diag|].
    by rewrite lookup_insert_ne. }
  split; eapply observes_same_intro; eauto using extends_data_of, extends_cutoff_of.
Qed.

(** The instance 0 of the ten days store. *)
Lemma snapshot_restore_same_witness :
  objects started !! O = Some started_dict
  ∧ data_of started 0 = Some pv_store
  ∧ cutoff_of started 0 = Some None
  ∧ reopening started 0 = inr pv_store
  ∧ ∃ state y w',
      snapshot 0 started = (inr state, started)
      ∧ restore state started = (inr y, w')
      ∧ state !! "_data" = None
      ∧ (∀ name, name ≠ "_data" → state !! name = started_dict !! name)
      ∧ observes_same started 0 w' y
      ∧ observes_same w' 0 w' y.
Proof.
  assert (H1 : objects started !! O = Some started_dict) by (vm_compute; reflexivity).
  assert (H2 : data_of started 0 = Some pv_store) by (vm_compute; reflexivity).
  assert (H3 : cutoff_of started 0 = Some None) by (vm_compute; reflexivity).
  assert (H4 : reopening started 0 = inr pv_store) by (vm_compute; reflexivity).
  repeat (split; [assumption|]).
  exact (snapshot_restore_same started 0 started_dict None pv_store H1 H2 H3 H4).
Defined.

(** C5, as the code has it: a [get] with an id that is not in the store
    raises a [KeyError], the error of a label that is not found; for a list
    of ids its message names the index of the ids, [pv_id], and not the ids
    that are missing.  The call leaves the state as it was, and a [get] that
    follows with known ids, and with a start and an effective end that the
    time index can be asked for, returns the table [sel] selects for them,
    with the ids asked for and the timestamps of the window.  The store has
    unique ids and its timestamps in increasing order. *)
Theorem get_unknown_id_raises (w : world) (self : nat) (ds : xr.Dataset)
    (c : option Timestamp) (ids : list xr.label) (ts : list Timestamp)
    (q : xr.id_query) (start_ts end_ts : option Timestamp) :
  data_of w self = Some ds →
  cutoff_of w self = Some c →
  id_index ds = Some ids → NoDup ids →
  time_index ds = Some ts → xr.is_monotonic_increasing ts = true →
  ¬ known ids q →
  ∃ msg,
    get self q start_ts end_ts w = (inl (KeyError msg), w)
    ∧ (∀ l, q = xr.Many l → msg = "not all values found in index 'pv_id'")
    ∧ ∀ q' start_ts' end_ts',
        known ids q' →
        in_range start_ts' → in_range (min_timestamp c end_ts') →
        ∃ tbl,
          get self q' start_ts' end_ts' (get self q start_ts end_ts w).2 = (inr tbl, w)
          ∧ xr.sel ds q' start_ts' (min_timestamp c end_ts') = inr tbl
          ∧ xr.coords tbl !! _ID = Some (asked_coord q')
          ∧ table_times tbl = window ts start_ts' (min_timestamp c end_ts').
Proof.
  intros Hds Hc Hids Hnd Hts _ Hq.
  assert (get self q start_ts end_ts w
          = (inl (KeyError "not all values found in index 'pv_id'"), w)) as Hfail.
  { rewrite (run_get _ _ _ _ _ _ _ Hds Hc).
    by rewrite (sel_unknown _ _ _ _ _ Hids Hnd Hq). }
  eexists. split; [exact Hfail|]. split; [done|]. rewrite Hfail. simpl.
  intros q' s' e' Hq' Hs' He'.
  destruct (sel_known ds ids ts q' s' (min_timestamp c e') Hids Hnd Hq' Hts Hs' He')
    as (id_ix & Hsel & Hco & _).
  eexists. rewrite (run_get _ _ _ _ _ _ _ Hds Hc), Hsel.
  split; [done|]. split; [done|]. split.
  - rewrite isel_coords_id, (proj1 (id_index_Some _ _) Hids). by rewrite <- Hco.
  - by apply table_times_isel.
Qed.

(** The instance 0 of the ten days store, asked for the sites 12 and 99. *)
Lemma get_unknown_id_raises_witness :
  data_of started 0 = Some pv_store
  ∧ cutoff_of started 0 = Some None
  ∧ id_index pv_store = Some [xr.LStr "7"; xr.LStr "12"]
  ∧ NoDup [xr.LStr "7"; xr.LStr "12"]
  ∧ time_index pv_store = Some days
  ∧ xr.is_monotonic_increasing days = true
  ∧ ¬ known [xr.LStr "7"; xr.LStr "12"] (xr.Many ["12"; "99"])
  ∧ ∃ msg,
      get 0 (xr.Many ["12"; "99"]) None None started = (inl (KeyError msg), started)
      ∧ (∀ l, xr.Many ["12"; "99"] = xr.Many l →
         msg = "not all values found in index 'pv_id'")
      ∧ ∀ q' start_ts' end_ts',
          known [xr.LStr "7"; xr.LStr "12"] q' →
          in_range start_ts' → in_range (min_timestamp None end_ts') →
          ∃ tbl,
            get 0 q' start_ts' end_ts' (get 0 (xr.Many ["12"; "99"]) None None started).2
            = (inr tbl, started)
            ∧ xr.sel pv_store q' start_ts' (min_timestamp None end_ts') = inr tbl
            ∧ xr.coords tbl !! _ID = Some (asked_coord q')
            ∧ table_times tbl = window days start_ts' (min_timestamp None end_ts').
Proof.
  assert (H1 : data_of started 0 = Some pv_store) by (vm_compute; reflexivity).
  assert (H2 : cutoff_of started 0 = Some None) by (vm_compute; reflexivity).
  assert (H3 : id_index pv_store = Some [xr.LStr "7"; xr.LStr "12"])
    by (vm_compute; reflexivity).
  assert (H4 : NoDup [xr.LStr "7"; xr.LStr "12"]) by compute_done.
  assert (H5 : time_index pv_store = Some days) by (vm_compute; reflexivity).
  assert (H6 : xr.is_monotonic_increasing days = true) by (vm_compute; reflexivity).
  assert (H7 : ¬ known [xr.LStr "7"; xr.LStr "12"] (xr.Many ["12"; "99"]))
    by (unfold known; compute_done).
  repeat (split; [assumption|]).
  exact (get_unknown_id_raises started 0 pv_store None [xr.LStr "7"; xr.LStr "12"] days
           (xr.Many ["12"; "99"]) None None H1 H2 H3 H4 H5 H6 H7).
Defined.

(** C5 as the specification states it fails on the ten days store: the
    error of a [get] for the unknown id [99] does not mention [99], and it
    is the error of a [get] for the unknown id [98]. *)
Lemma get_unknown_id_named_counterexample :
  ∃ msg,
    get 0 (xr.Many ["12"; "99"]) None None started = (inl (KeyError msg), started)
    ∧ occurs_in "99" msg = false
    ∧ get 0 (xr.Many ["12"; "98"]) None None started = (inl (KeyError msg), started).
Proof.
  exists "not all values found in index 'pv_id'".
  repeat split; vm_compute; reflexivity.
Qed.

(** C6: [min_ts] returns the least timestamp of the store combined with the
    cutoff by [min_timestamp], [max_ts] the greatest one combined with the
    cutoff; under a cutoff that is not before the greatest timestamp of the
    store, [max_ts] is that greatest timestamp. *)
Theorem min_ts_max_ts_combine (w : world) (self : nat) (ds : xr.Dataset)
    (c : option Timestamp) (ts : list Timestamp) :
  data_of w self = Some ds →
  cutoff_of w self = Some c →
  time_index ds = Some ts →
  ts ≠ [] →
  ∃ lo hi,
    least lo ts ∧ greatest hi ts
    ∧ min_ts self w = (inr (min_timestamp (Some lo) c), w)
    ∧ max_ts self w = (inr (min_timestamp (Some hi) c), w)
    ∧ (below hi c → max_ts self w = (inr (Some hi), w)).
Proof.
  intros Hds Hc Hts Hne.
  destruct (run_min_ts_times _ _ _ _ _ Hds Hc Hts Hne) as (lo & Hlo & Hmin).
  destruct (run_max_ts_times _ _ _ _ _ Hds Hc Hts Hne) as (hi & Hhi & Hmax).
  exists lo, hi. repeat split; try done; try apply Hlo; try apply Hhi.
  intros Hb. rewrite Hmax. destruct c as [x|]; simpl in *; [|done].
  by rewrite Z.min_l.
Qed.

(** The instance with a cutoff at day 20, after the ten days of the store. *)
Lemma min_ts_max_ts_combine_witness :
  data_of late 1 = Some pv_store
  ∧ cutoff_of late 1 = Some (Some (day 20 - timedelta_seconds 1))
  ∧ time_index pv_store = Some days
  ∧ days ≠ []
  ∧ ∃ lo hi,
      least lo days ∧ greatest hi days
      ∧ min_ts 1 late
        = (inr (min_timestamp (Some lo) (Some (day 20 - timedelta_seconds 1))), late)
      ∧ max_ts 1 late
        = (inr (min_timestamp (Some hi) (Some (day 20 - timedelta_seconds 1))), late)
      ∧ (below hi (Some (day 20 - timedelta_seconds 1)) →
         max_ts 1 late = (inr (Some hi), late)).
Proof.
  assert (H1 : data_of late 1 = Some pv_store) by (vm_compute; reflexivity).
  assert (H2 : cutoff_of late 1 = Some (Some (day 20 - timedelta_seconds 1)))
    by (vm_compute; reflexivity).
  assert (H3 : time_index pv_store = Some days) by (vm_compute; reflexivity).
  assert (H4 : days ≠ []) by (vm_compute; discriminate).
  repeat (split; [assumption|]).
  exact (min_ts_max_ts_combine late 1 pv_store (Some (day 20 - timedelta_seconds 1)) days
           H1 H2 H3 H4).
Defined.

(** C7: [min_timestamp] maps two absent bounds to an absent bound, ignores an
    absent bound next to a concrete one, is the minimum of two concrete
    timestamps, and is commutative, associative and idempotent. *)
Theorem min_timestamp_algebra :
  min_timestamp None None = None
  /\ (forall x : option Timestamp, min_timestamp x None = x)
  /\ (forall x : option Timestamp, min_timestamp None x = x)
  /\ (forall x y : Timestamp, min_timestamp (Some x) (Some y) = Some (Z.min x y))
  /\ (forall x y : option Timestamp, min_timestamp x y = min_timestamp y x)
  /\ (forall x y z : option Timestamp,
         min_timestamp x (min_timestamp y z) = min_timestamp (min_timestamp x y) z)
  /\ (forall x : option Timestamp, min_timestamp x x = x).
Proof.
  repeat split.
  - by intros [x|].
  - by intros [x|].
  - intros [x|] [y|]; simpl; try done. by rewrite Z.min_comm.
  - intros [x|] [y|] [z|]; simpl; try done. by rewrite Z.min_assoc.
  - intros [x|]; simpl; try done. by rewrite Z.min_id.
Qed.

(** C8: [without_future] does not write to the instance it is called on:
    whether the call returns or raises, the parent has the attributes, the
    cutoff and the dataset it had, and answers every read as before. *)
Theorem without_future_keeps_self (w : world) (self : nat) (ds : xr.Dataset)
    (c : option Timestamp) (now : Timestamp) (blackout : Z) :
  data_of w self = Some ds →
  cutoff_of w self = Some c →
  objects (without_future self now blackout w).2 !! self = objects w !! self
  ∧ cutoff_of (without_future self now blackout w).2 self = cutoff_of w self
  ∧ data_of (without_future self now blackout w).2 self = data_of w self
  ∧ files (without_future self now blackout w).2 = files w
  ∧ observes_same w self (without_future self now blackout w).2 self.
Proof.
  intros Hds Hc.
  pose proof (without_future_extends w self now blackout) as Hext.
  set (w' := (without_future self now blackout w).2) in *.
  pose proof (extends_data_of _ _ _ _ Hext Hds) as Hds'.
  pose proof (extends_cutoff_of _ _ _ _ Hext Hc) as Hc'.
  split.
  { apply cutoff_of_Some in Hc as (d & Hd & _).
    by rewrite Hd, (extends_objects _ _ _ _ Hext Hd). }
  split; [by rewrite Hc, Hc'|]. split; [by rewrite Hds, Hds'|].
  split; [apply Hext|]. by eapply observes_same_intro.
Qed.

(** The instance 0 of the ten days store, at day 4 with a blackout of one
    hour. *)
Lemma without_future_keeps_self_witness :
  data_of started 0 = Some pv_store
  ∧ cutoff_of started 0 = Some None
  ∧ objects (without_future 0 (day 4) 60 started).2 !! O = objects started !! O
  ∧ cutoff_of (without_future 0 (day 4) 60 started).2 0 = cutoff_of started 0
  ∧ data_of (without_future 0 (day 4) 60 started).2 0 = data_of started 0
  ∧ files (without_future 0 (day 4) 60 started).2 = files started
  ∧ observes_same started 0 (without_future 0 (day 4) 60 started).2 0.
Proof.
  assert (H1 : data_of started 0 = Some pv_store) by (vm_compute; reflexivity).
  assert (H2 : cutoff_of started 0 = Some None) by (vm_compute; reflexivity).
  repeat (split; [assumption|]).
  exact (without_future_keeps_self started 0 pv_store None (day 4) 60 H1 H2).
Defined.

(** C9, as the code has it: a [get] for known ids whose start is after the
    effective end, the smaller of the cutoff and [end_ts], does not raise
    when both are timestamps that the time index can be asked for: it
    returns a table without timestamps that has the ids asked for as its id
    coordinate and the variables of the store; for a list of ids the
    variables have the dimensions they have in the store, and a well shaped
    variable over the time axis holds no measurement.  The store has unique
    ids and its timestamps in increasing order. *)
Theorem get_closed_window_empty (w : world) (self : nat) (ds : xr.Dataset)
    (c : option Timestamp) (ids : list xr.label) (ts : list Timestamp)
    (q : xr.id_query) (start_ts : Timestamp) (end_ts : option Timestamp)
    (e : Timestamp) :
  data_of w self = Some ds →
  cutoff_of w self = Some c →
  id_index ds = Some ids → NoDup ids →
  time_index ds = Some ts → xr.is_monotonic_increasing ts = true →
  known ids q →
  min_timestamp c end_ts = Some e → e < start_ts →
  xr.in_ns_range start_ts = true → xr.in_ns_range e = true →
  ∃ tbl,
    get self q (Some start_ts) end_ts w = (inr tbl, w)
    ∧ table_times tbl = []
    ∧ xr.coords tbl !! _TS = Some (xr.Index [])
    ∧ xr.coords tbl !! _ID = Some (asked_coord q)
    ∧ dom (xr.data_vars tbl) = dom (xr.data_vars ds)
    ∧ ∀ l name a,
        q = xr.Many l →
        xr.data_vars ds !! name = Some a →
        ∃ a',
          xr.data_vars tbl !! name = Some a'
          ∧ xr.dims a' = xr.dims a
          ∧ (xr.well_shaped a = true → _TS ∈ xr.dims a → xr.items (xr.values a') = []).
Proof.
  intros Hds Hc Hids Hnd Hts _ Hq He Hlt Hstart Hend.
  destruct (sel_known ds ids ts q (Some start_ts) (Some e) Hids Hnd Hq Hts Hstart Hend)
    as (id_ix & Hsel & Hco & Hkeep).
  pose proof (searchsorted_right_le_left ts start_ts e Hlt) as Hle.
  eexists. rewrite (run_get _ _ _ _ _ _ _ Hds Hc), He. split; [by rewrite Hsel|].
  split.
  { rewrite (table_times_isel _ _ _ _ _ Hts). unfold window. simpl.
    by replace (_ - _)%nat with O by lia. }
  split.
  { rewrite isel_coords_ts, (proj1 (time_index_Some _ _) Hts). simpl.
    by replace (_ - _)%nat with O by lia. }
  split.
  { rewrite isel_coords_id, (proj1 (id_index_Some _ _) Hids). by rewrite <- Hco. }
  split.
  { simpl. by rewrite !dom_fmap_L. }
  intros l name a Hl Ha. destruct (Hkeep l Hl) as [ps ->].
  eexists. rewrite isel_data_vars, Ha. split; [done|]. split.
  - assert (∀ a0 d ix, (∀ p, ix ≠ xr.At p) → xr.dims (xr.isel_var d ix a0) = xr.dims a0)
      as Hdims.
    { intros a0 d ix Hix. unfold xr.isel_var.
      destruct (list_find _ _) as [[k ?]|]; [|done].
      destruct ix; [by destruct (Hix p) | done | done]. }
    by rewrite !Hdims.
  - intros Hshape Hin. by apply items_isel_var_empty.
Qed.

(** The instance with the cutoff an hour and a second before day 4, asked
    for the days from day 4 on. *)
Lemma get_closed_window_empty_witness :
  data_of derived 1 = Some pv_store
  ∧ cutoff_of derived 1 = Some (Some derived_cutoff)
  ∧ id_index pv_store = Some [xr.LStr "7"; xr.LStr "12"]
  ∧ NoDup [xr.LStr "7"; xr.LStr "12"]
  ∧ time_index pv_store = Some days
  ∧ xr.is_monotonic_increasing days = true
  ∧ known [xr.LStr "7"; xr.LStr "12"] (xr.Many ["12"; "7"])
  ∧ min_timestamp (Some derived_cutoff) None = Some derived_cutoff
  ∧ derived_cutoff < day 4
  ∧ xr.in_ns_range (day 4) = true
  ∧ xr.in_ns_range derived_cutoff = true
  ∧ ∃ tbl,
      get 1 (xr.Many ["12"; "7"]) (Some (day 4)) None derived = (inr tbl, derived)
      ∧ table_times tbl = []
      ∧ xr.coords tbl !! _TS = Some (xr.Index [])
      ∧ xr.coords tbl !! _ID = Some (asked_coord (xr.Many ["12"; "7"]))
      ∧ dom (xr.data_vars tbl) = dom (xr.data_vars pv_store)
      ∧ ∀ l name a,
          xr.Many ["12"; "7"] = xr.Many l →
          xr.data_vars pv_store !! name = Some a →
          ∃ a',
            xr.data_vars tbl !! name = Some a'
            ∧ xr.dims a' = xr.dims a
            ∧ (xr.well_shaped a = true → _TS ∈ xr.dims a →
               xr.items (xr.values a') = []).
Proof.
  assert (H1 : data_of derived 1 = Some pv_store) by (vm_compute; reflexivity).
  assert (H2 : cutoff_of derived 1 = Some (Some derived_cutoff))
    by (vm_compute; reflexivity).
  assert (H3 : id_index pv_store = Some [xr.LStr "7"; xr.LStr "12"])
    by (vm_compute; reflexivity).
  assert (H4 : NoDup [xr.LStr "7"; xr.LStr "12"]) by compute_done.
  assert (H5 : time_index pv_store = Some days) by (vm_compute; reflexivity).
  assert (H6 : xr.is_monotonic_increasing days = true) by (vm_compute; reflexivity).
  assert (H7 : known [xr.LStr "7"; xr.LStr "12"] (xr.Many ["12"; "7"]))
    by (unfold known; compute_done).
  assert (H8 : min_timestamp (Some derived_cutoff) None = Some derived_cutoff)
    by reflexivity.
  assert (H9 : derived_cutoff < day 4) by (vm_compute; reflexivity).
  assert (H10 : xr.in_ns_range (day 4) = true) by (vm_compute; reflexivity).
  assert (H11 : xr.in_ns_range derived_cutoff = true) by (vm_compute; reflexivity).
  repeat (split; [assumption|]).
  exact (get_closed_window_empty derived 1 pv_store (Some derived_cutoff)
           [xr.LStr "7"; xr.LStr "12"] days (xr.Many ["12"; "7"]) (day 4) None
           derived_cutoff H1 H2 H3 H4 H5 H6 H7 H8 H9 H10 H11).
Defined.

(** C9 as the specification states it fails on the ten days store: a [get]
    for the known id [7] from 2300-01-01 to day 2, a start after the end,
    raises [OutOfBoundsDatetime] and returns no table. *)
Lemma get_closed_window_raises_counterexample :
  known [xr.LStr "7"; xr.LStr "12"] (xr.Many ["7"])
  ∧ min_timestamp None (Some (day 2)) = Some (day 2)
  ∧ day 2 < year_2300
  ∧ get 0 (xr.Many ["7"]) (Some year_2300) (Some (day 2)) started
    = (inl (OutOfBoundsDatetime year_2300), started)
  ∧ ¬ ∃ tbl w',
        get 0 (xr.Many ["7"]) (Some year_2300) (Some (day 2)) started = (inr tbl, w').
Proof.
  assert (get 0 (xr.Many ["7"]) (Some year_2300) (Some (day 2)) started
          = (inl (OutOfBoundsDatetime year_2300), started)) as Hraise
    by (vm_compute; reflexivity).
  split; [unfold known; compute_done|]. split; [done|].
  split; [by vm_compute|]. split; [done|].
  intros (tbl & w' & Hget). by rewrite Hraise in Hget.
Qed.

(** The table of the closed window on the ten days store: the two sites,
    no timestamp, and the variable [power] without a measurement. *)
Example closed_window_table :
  ∃ tbl,
    get 1 (xr.Many ["12"; "7"]) (Some (day 4)) None derived = (inr tbl, derived)
    ∧ map_to_list (xr.coords tbl)
      = [("ts", xr.Index []); ("pv_id", xr.Index [xr.LStr "12"; xr.LStr "7"])]
    ∧ map_to_list (xr.data_vars tbl)
      = [("power", {| xr.dims := ["pv_id"; "ts"];
                      xr.values := xr.Axis [xr.Axis []; xr.Axis []] |})].
Proof. eexists. repeat split; vm_compute; reflexivity. Qed.

(** C10: [without_future] takes a negative blackout as it takes any other:
    the call returns, and the cutoff of the derived instance is the cutoff of
    the parent combined with [now] plus the minutes of the blackout less one
    second, which is after [now]; a [get] on the derived instance then
    returns every timestamp of the store up to that cutoff, those after
    [now] included.  The store has unique ids and its timestamps in
    increasing order, and [now] and [now] plus the minutes of the blackout
    less one second are timestamps that the time index can be asked for. *)
Theorem without_future_negative_blackout (w : world) (self h : nat)
    (c : option Timestamp) (ds : xr.Dataset) (ids : list xr.label)
    (ts : list Timestamp) (now : Timestamp) (blackout : Z) :
  handle_of w self = Some h →
  cutoff_of w self = Some c →
  reopening w self = inr ds →
  id_index ds = Some ids → NoDup ids →
  time_index ds = Some ts → xr.is_monotonic_increasing ts = true →
  blackout < 0 →
  xr.in_ns_range now = true →
  xr.in_ns_range (now + timedelta_minutes (Z.abs blackout) - timedelta_seconds 1) = true →
  ∃ new w',
    without_future self now blackout w = (inr new, w')
    ∧ cutoff_of w' new
      = Some (min_timestamp c
                (Some (now + timedelta_minutes (Z.abs blackout) - timedelta_seconds 1)))
    ∧ now < now + timedelta_minutes (Z.abs blackout) - timedelta_seconds 1
    ∧ ∀ t q,
        t ∈ ts → now < t →
        t <= now + timedelta_minutes (Z.abs blackout) - timedelta_seconds 1 →
        below t c →
        known ids q →
        ∃ tbl, get new q None None w' = (inr tbl, w') ∧ t ∈ table_times tbl.
Proof.
  intros Hh Hc Hre Hids Hnd Hts Hmono Hneg Hnow Hadjr.
  destruct (objects w !! self) as [d|] eqn:Hd;
    [|by unfold reopening in Hre; rewrite Hd in Hre].
  destruct (without_future_result w self h d c ds now blackout Hd Hh Hc Hre)
    as (w' & d' & Hrun & _ & _ & _ & _ & _ & Hds' & Hc').
  assert (now - timedelta_minutes blackout - timedelta_seconds 1
          = now + timedelta_minutes (Z.abs blackout) - timedelta_seconds 1) as Hadj.
  { unfold timedelta_minutes. lia. }
  rewrite Hadj in Hc'.
  exists (length (objects w)), w'. split; [done|]. split; [done|].
  split; [unfold timedelta_minutes, timedelta_seconds; lia|].
  intros t q Hin Hafter Hle Hbelow Hq.
  set (adj := now + timedelta_minutes (Z.abs blackout) - timedelta_seconds 1) in *.
  assert (in_range (min_timestamp (min_timestamp c (Some adj)) None)) as Hcut.
  { destruct c as [x|]; simpl; [|done]. simpl in Hbelow.
    destruct (Z.min_spec x adj) as [[Hlt ->]|[_ ->]]; [|done].
    apply (in_ns_range_between now x adj); [done | done | lia | lia]. }
  set (cut := min_timestamp c _) in *.
  destruct (sel_known ds ids ts q None (min_timestamp cut None) Hids Hnd Hq Hts I Hcut)
    as (id_ix & Hsel & _).
  eexists. rewrite (run_get _ _ _ _ _ _ _ Hds' Hc'), Hsel. split; [done|].
  rewrite (table_times_isel _ _ _ _ _ Hts).
  apply (elem_of_slice _ _ _ _ Hmono). split; [done|]. split; [done|].
  unfold cut. rewrite !below_min_timestamp. by repeat split.
Qed.

(** The instance 0 of the ten days store, at day 4 with a blackout of minus
    two days. *)
Lemma without_future_negative_blackout_witness :
  handle_of started 0 = Some O
  ∧ cutoff_of started 0 = Some None
  ∧ reopening started 0 = inr pv_store
  ∧ id_index pv_store = Some [xr.LStr "7"; xr.LStr "12"]
  ∧ NoDup [xr.LStr "7"; xr.LStr "12"]
  ∧ time_index pv_store = Some days
  ∧ xr.is_monotonic_increasing days = true
  ∧ -2880 < 0
  ∧ xr.in_ns_range (day 4) = true
  ∧ xr.in_ns_range (day 4 + timedelta_minutes (Z.abs (-2880)) - timedelta_seconds 1) = true
  ∧ ∃ new w',
      without_future 0 (day 4) (-2880) started = (inr new, w')
      ∧ cutoff_of w' new
        = Some (min_timestamp None
                  (Some (day 4 + timedelta_minutes (Z.abs (-2880)) - timedelta_seconds 1)))
      ∧ day 4 < day 4 + timedelta_minutes (Z.abs (-2880)) - timedelta_seconds 1
      ∧ ∀ t q,
          t ∈ days → day 4 < t →
          t <= day 4 + timedelta_minutes (Z.abs (-2880)) - timedelta_seconds 1 →
          below t None →
          known [xr.LStr "7"; xr.LStr "12"] q →
          ∃ tbl, get new q None None w' = (inr tbl, w') ∧ t ∈ table_times tbl.
Proof.
  assert (H1 : handle_of started 0 = Some O) by (vm_compute; reflexivity).
  assert (H2 : cutoff_of started 0 = Some None) by (vm_compute; reflexivity).
  assert (H3 : reopening started 0 = inr pv_store) by (vm_compute; reflexivity).
  assert (H4 : id_index pv_store = Some [xr.LStr "7"; xr.LStr "12"])
    by (vm_compute; reflexivity).
  assert (H5 : NoDup [xr.LStr "7"; xr.LStr "12"]) by compute_done.
  assert (H6 : time_index pv_store = Some days) by (vm_compute; reflexivity).
  assert (H7 : xr.is_monotonic_increasing days = true) by (vm_compute; reflexivity).
  assert (H8 : -2880 < 0) by lia.
  assert (H9 : xr.in_ns_range (day 4) = true) by (vm_compute; reflexivity).
  assert (H10 : xr.in_ns_range (day 4 + timedelta_minutes (Z.abs (-2880))
                                - timedelta_seconds 1) = true)
    by (vm_compute; reflexivity).
  repeat (split; [assumption|]).
  exact (without_future_negative_blackout started 0 0 None pv_store
           [xr.LStr "7"; xr.LStr "12"] days (day 4) (-2880)
           H1 H2 H3 H4 H5 H6 H7 H8 H9 H10).
Defined.

(** With a blackout of minus two days at day 4, the derived instance returns
    the observations of day 5, which is after day 4. *)
Example negative_blackout_returns_day_5 :
  ∃ tbl,
    get 1 (xr.One "7") None None (without_future 0 (day 4) (-2880) started).2
    = (inr tbl, (without_future 0 (day 4) (-2880) started).2)
    ∧ table_times tbl = [day 0; day 1; day 2; day 3; day 4; day 5]
    ∧ day 4 < day 5.
Proof. eexists. repeat split; vm_compute; reflexivity. Qed.

(** * The scenarios of the specification *)

(** The state [started], spelled out. *)
Lemma started_state :
  datasets started = [pv_store] ∧ objects started = [started_dict].
Proof. split; vm_compute; reflexivity. Qed.

(** The scenarios of the specification on the ten days store, day 0 being
    2020-01-01. *)
Example scenario_A :
  get 0 (xr.Many ["12"]) (Some (day 2)) (Some (day 4)) started
  = (inr site12_days_2_to_4, started).
Proof. vm_compute. reflexivity. Qed.

Example scenario_B :
  max_ts 1 derived = (inr (Some (day 4 - timedelta_minutes 60 - timedelta_seconds 1)), derived)
  ∧ ∃ tbl,
      get 1 (xr.Many ["12"]) None (Some (day 4)) derived = (inr tbl, derived)
      ∧ table_times tbl = [day 0; day 1; day 2; day 3].
Proof. split; [|eexists; split]; vm_compute; reflexivity. Qed.

Example scenario_C :
  max_ts 0 started = (inr (Some (day 9)), started)
  ∧ max_ts 1 late = (inr (Some (day 9)), late).
Proof. split; vm_compute; reflexivity. Qed.

Example scenario_D :
  get 0 (xr.Many ["99"]) None None started
  = (inl (KeyError "not all values found in index 'pv_id'"), started)
  ∧ get 0 (xr.Many ["12"]) (Some (day 2)) (Some (day 4))
      (get 0 (xr.Many ["99"]) None None started).2
    = (inr site12_days_2_to_4, started).
Proof. split; vm_compute; reflexivity. Qed.

(** * Further properties of the data source *)

(** ** Reads *)

Lemma reads_only_bind {A B : Type} (c : M A) (f : A → M B) :
  reads_only c → (∀ x, reads_only (f x)) → reads_only (c ≫= f).
Proof.
  intros Hc Hf w. rewrite run_bind. specialize (Hc w).
  destruct (c w) as [[e|x] w1]; simpl in *; subst; [done | apply Hf].
Qed.

Lemma reads_only_mret {A : Type} (x : A) : reads_only (mret x : M A).
Proof. by intros w. Qed.

Lemma reads_only_raise {A : Type} (e : exn) : reads_only (raise e : M A).
Proof. by intros w. Qed.

Lemma reads_only_lift {A : Type} (r : exn + A) : reads_only (lift r).
Proof. by intros w. Qed.

Lemma reads_only_getattr (self : nat) (name : string) : reads_only (getattr self name).
Proof.
  apply reads_only_bind.
  - intros w. unfold get_dict. by destruct (objects w !! self).
  - intros d. destruct (d !! name); [apply reads_only_mret | apply reads_only_raise].
Qed.

Lemma reads_only_read_dataset (h : nat) : reads_only (read_dataset h).
Proof. intros w. unfold read_dataset. by destruct (datasets w !! h). Qed.

Ltac solve_reads :=
  repeat first
    [ apply reads_only_getattr | apply reads_only_read_dataset
    | apply reads_only_lift | apply reads_only_mret | apply reads_only_raise
    | apply reads_only_bind; [|intros ?] ].

(** X1: [get], [list_pv_ids], [min_ts] and [max_ts] never write: whatever the
    instance and the arguments, and whether the call returns or raises, the
    state after the call is the state before it. *)
Theorem reads_leave_state (self : nat) :
  (∀ q start_ts end_ts, reads_only (get self q start_ts end_ts))
  ∧ reads_only (list_pv_ids self)
  ∧ reads_only (min_ts self)
  ∧ reads_only (max_ts self).
Proof.
  split; [|split; [|split]].
  - intros q s e. unfold get, as_timestamp, as_dataset. solve_reads.
  - unfold list_pv_ids, as_dataset. solve_reads.
    match goal with |- reads_only (match ?l with _ => _ end) => destruct l as [|[n|s] l'] end;
      solve_reads.
  - unfold min_ts, as_timestamp, as_dataset. solve_reads.
  - unfold max_ts, as_timestamp, as_dataset. solve_reads.
Qed.

(** ** The cutoff as a bound *)

(** X2: [min_timestamp a b] is the greatest lower bound of its arguments in
    the order where [None] is above every timestamp: a timestamp is below it
    exactly when it is below both, and the result is one of the two
    arguments. *)
Theorem min_timestamp_greatest_lower_bound (a b : option Timestamp) :
  (∀ t, below t (min_timestamp a b) ↔ below t a ∧ below t b)
  ∧ (min_timestamp a b = a ∨ min_timestamp a b = b).
Proof.
  split.
  - intros t. destruct a as [x|], b as [y|]; simpl; lia.
  - destruct a as [x|], b as [y|]; simpl; auto.
    destruct (Z.min_spec x y) as [[_ ->]|[_ ->]]; auto.
Qed.

(** ** The window of [get] *)

Lemma window_sublist (ts : list Timestamp) (start stop : option Timestamp) :
  window ts start stop `sublist_of` ts.
Proof. unfold window. etrans; [apply sublist_take | apply sublist_drop]. Qed.

(** X3: on a store with unique ids and its timestamps in increasing order, a
    [get] for known ids, with a start and an effective end that the time
    index can be asked for, returns, and the table has the ids asked for, in
    the order asked, and exactly the timestamps of the store that are not
    before [start_ts], not after [end_ts] and not after the cutoff, in the
    order of the store. *)
Theorem get_exact_window (w : world) (self : nat) (ds : xr.Dataset)
    (c : option Timestamp) (ids : list xr.label) (ts : list Timestamp)
    (q : xr.id_query) (start_ts end_ts : option Timestamp) :
  data_of w self = Some ds →
  cutoff_of w self = Some c →
  id_index ds = Some ids → NoDup ids →
  time_index ds = Some ts → xr.is_monotonic_increasing ts = true →
  known ids q →
  in_range start_ts → in_range (min_timestamp c end_ts) →
  ∃ tbl,
    get self q start_ts end_ts w = (inr tbl, w)
    ∧ xr.coords tbl !! _ID = Some (asked_coord q)
    ∧ table_times tbl `sublist_of` ts
    ∧ ∀ t, t ∈ table_times tbl
           ↔ t ∈ ts ∧ above t start_ts ∧ below t end_ts ∧ below t c.
Proof.
  intros Hds Hc Hids Hnd Hts Hmono Hq Hstart Hstop.
  destruct (sel_known ds ids ts q start_ts (min_timestamp c end_ts) Hids Hnd Hq Hts
              Hstart Hstop)
    as (id_ix & Hsel & Hco & _).
  eexists. rewrite (run_get _ _ _ _ _ _ _ Hds Hc), Hsel. split; [done|].
  rewrite (table_times_isel _ _ _ _ _ Hts). split.
  { rewrite isel_coords_id, (proj1 (id_index_Some _ _) Hids). by rewrite <- Hco. }
  split; [apply window_sublist|].
  intros t. unfold window. rewrite (elem_of_slice _ _ _ _ Hmono), below_min_timestamp.
  tauto.
Qed.

(** The instance 0 of the ten days store, asked for the site 12 from day 2
    to day 4. *)
Lemma get_exact_window_witness :
  data_of started 0 = Some pv_store
  ∧ cutoff_of started 0 = Some None
  ∧ id_index pv_store = Some [xr.LStr "7"; xr.LStr "12"]
  ∧ NoDup [xr.LStr "7"; xr.LStr "12"]
  ∧ time_index pv_store = Some days
  ∧ xr.is_monotonic_increasing days = true
  ∧ known [xr.LStr "7"; xr.LStr "12"] (xr.Many ["12"])
  ∧ in_range (Some (day 2))
  ∧ in_range (min_timestamp None (Some (day 4)))
  ∧ ∃ tbl,
      get 0 (xr.Many ["12"]) (Some (day 2)) (Some (day 4)) started = (inr tbl, started)
      ∧ xr.coords tbl !! _ID = Some (asked_coord (xr.Many ["12"]))
      ∧ table_times tbl `sublist_of` days
      ∧ ∀ t, t ∈ table_times tbl
             ↔ t ∈ days ∧ above t (Some (day 2)) ∧ below t (Some (day 4)) ∧ below t None.
Proof.
  assert (H1 : data_of started 0 = Some pv_store) by (vm_compute; reflexivity).
  assert (H2 : cutoff_of started 0 = Some None) by (vm_compute; reflexivity).
  assert (H3 : id_index pv_store = Some [xr.LStr "7"; xr.LStr "12"])
    by (vm_compute; reflexivity).
  assert (H4 : NoDup [xr.LStr "7"; xr.LStr "12"]) by compute_done.
  assert (H5 : time_index pv_store = Some days) by (vm_compute; reflexivity).
  assert (H6 : xr.is_monotonic_increasing days = true) by (vm_compute; reflexivity).
  assert (H7 : known [xr.LStr "7"; xr.LStr "12"] (xr.Many ["12"])) by compute_done.
  assert (H8 : in_range (Some (day 2))) by (vm_compute; reflexivity).
  assert (H9 : in_range (min_timestamp None (Some (day 4)))) by (vm_compute; reflexivity).
  repeat (split; [assumption|]).
  exact (get_exact_window started 0 pv_store None [xr.LStr "7"; xr.LStr "12"] days
           (xr.Many ["12"]) (Some (day 2)) (Some (day 4)) H1 H2 H3 H4 H5 H6 H7 H8 H9).
Defined.

(** ** Deriving and reading *)

(** [without_future] on an instance that holds a handle and a cutoff, over
    files that open: all that the later calls need of the derived instance. *)
Lemma without_future_step (w : world) (self h : nat) (c : option Timestamp)
    (ds : xr.Dataset) (now : Timestamp) (blackout : Z) :
  handle_of w self = Some h →
  cutoff_of w self = Some c →
  reopening w self = inr ds →
  ∃ w',
    without_future self now blackout w = (inr (length (objects w)), w')
    ∧ extends w w'
    ∧ handle_of w' (length (objects w)) = Some (length (datasets w))
    ∧ data_of w' (length (objects w)) = Some ds
    ∧ reopening w' (length (objects w)) = inr ds
    ∧ cutoff_of w' (length (objects w))
      = Some (min_timestamp c
                (Some (now - timedelta_minutes blackout - timedelta_seconds 1))).
Proof.
  intros Hh Hc Hre.
  destruct (objects w !! self) as [d|] eqn:Hd;
    [|by unfold reopening in Hre; rewrite Hd in Hre].
  destruct (without_future_result w self h d c ds now blackout Hd Hh Hc Hre)
    as (w' & d' & Hrun & Hext & _ & Hobjs & Hd' & Hh' & Hds' & Hc').
  exists w'. repeat (split; [done|]). split; [|done].
  unfold reopening. rewrite Hobjs, lookup_app_r, Nat.sub_diag by done. simpl.
  subst d'. rewrite !reopened_insert by auto.
  destruct Hext as (-> & _). unfold reopening in Hre. by rewrite Hd in Hre.
Qed.

(** On a store with a time index, a [sel] that returns for one window
    returns for every window with bounds of the range of the index. *)
Lemma sel_returns_any_window (ds tbl : xr.Dataset) (ts : list Timestamp)
    (q : xr.id_query) (start stop start' stop' : option Timestamp) :
  time_index ds = Some ts →
  xr.sel ds q start stop = inr tbl →
  in_range start' → in_range stop' →
  ∃ tbl', xr.sel ds q start' stop' = inr tbl'.
Proof.
  intros Hts Hsel Hstart' Hstop'. unfold xr.sel in *.
  destruct (xr.get_index "pv_id" ds) as [e|ids]; [done|]. simpl in *.
  destruct (match q with
            | xr.One i => xr.get_loc "pv_id" (xr.LStr i) ids
            | xr.Many l => xr.get_indexer "pv_id" (xr.LStr <$> l) ids
            end) as [e|id_ix]; [done|]. simpl in *.
  unfold xr.get_index in *.
  pose proof (proj1 (time_index_Some _ _) Hts) as Hco. unfold _TS in Hco.
  rewrite Hco in *. simpl in *.
  rewrite slice_indexer_times by done. simpl. by eexists.
Qed.

(** X4: no data from the future.  Every timestamp of every table that [get]
    returns on the instance derived by [without_future] is at most [now]
    less the blackout minutes less one second, whatever [end_ts] the caller
    passes; it is strictly before [now] when the blackout is not negative,
    and it is not after the cutoff of the parent.  The files open on a
    store with its timestamps in increasing order. *)
Theorem without_future_get_no_future (w : world) (self h : nat)
    (c : option Timestamp) (ds : xr.Dataset) (ts : list Timestamp)
    (now : Timestamp) (blackout : Z) :
  handle_of w self = Some h →
  cutoff_of w self = Some c →
  reopening w self = inr ds →
  time_index ds = Some ts → xr.is_monotonic_increasing ts = true →
  ∃ new w',
    without_future self now blackout w = (inr new, w')
    ∧ ∀ q start_ts end_ts tbl w'' t,
        get new q start_ts end_ts w' = (inr tbl, w'') →
        t ∈ table_times tbl →
        t <= now - timedelta_minutes blackout - timedelta_seconds 1
        ∧ (0 <= blackout → t < now)
        ∧ below t c.
Proof.
  intros Hh Hc Hre Hts Hmono.
  destruct (without_future_step w self h c ds now blackout Hh Hc Hre)
    as (w' & Hrun & _ & _ & Hds' & _ & Hc').
  exists (length (objects w)), w'. split; [done|].
  intros q s e tbl w'' t Hget Ht.
  rewrite (run_get _ _ _ _ _ _ _ Hds' Hc') in Hget. injection Hget as Hsel _.
  rewrite (sel_table_times _ _ _ _ _ _ Hts Hsel) in Ht.
  apply (elem_of_slice _ _ _ _ Hmono) in Ht as (_ & _ & Hbelow).
  rewrite !below_min_timestamp in Hbelow. destruct Hbelow as [[Hbc Hadj] _].
  simpl in Hadj. unfold timedelta_minutes, timedelta_seconds in *.
  repeat split; [lia | lia | done].
Qed.

(** The instance 0 of the ten days store, at day 4 with a blackout of one
    hour. *)
Lemma without_future_get_no_future_witness :
  handle_of started 0 = Some O
  ∧ cutoff_of started 0 = Some None
  ∧ reopening started 0 = inr pv_store
  ∧ time_index pv_store = Some days
  ∧ xr.is_monotonic_increasing days = true
  ∧ ∃ new w',
      without_future 0 (day 4) 60 started = (inr new, w')
      ∧ ∀ q start_ts end_ts tbl w'' t,
          get new q start_ts end_ts w' = (inr tbl, w'') →
          t ∈ table_times tbl →
          t <= day 4 - timedelta_minutes 60 - timedelta_seconds 1
          ∧ (0 <= 60 → t < day 4)
          ∧ below t None.
Proof.
  assert (H1 : handle_of started 0 = Some O) by (vm_compute; reflexivity).
  assert (H2 : cutoff_of started 0 = Some None) by (vm_compute; reflexivity).
  assert (H3 : reopening started 0 = inr pv_store) by (vm_compute; reflexivity).
  assert (H4 : time_index pv_store = Some days) by (vm_compute; reflexivity).
  assert (H5 : xr.is_monotonic_increasing days = true) by (vm_compute; reflexivity).
  repeat (split; [assumption|]).
  exact (without_future_get_no_future started 0 0 None pv_store days (day 4) 60
           H1 H2 H3 H4 H5).
Defined.

(** X5: the derived instance sees no more than its parent.  Over files that
    still give the dataset the parent has open, the cutoff of the derived
    instance is not above the cutoff of the parent; whenever a [get] on the
    derived instance and the same [get] on the parent both return, the
    table of the parent has every timestamp of the table of the derived
    instance; and the [get] on the parent returns when the one on the
    derived instance does and the effective end of the parent, the smaller
    of its cutoff and [end_ts], is a timestamp that the time index can be
    asked for. *)
Theorem without_future_narrows (w : world) (self : nat) (c : option Timestamp)
    (ds : xr.Dataset) (ts : list Timestamp) (now : Timestamp) (blackout : Z) :
  data_of w self = Some ds →
  cutoff_of w self = Some c →
  reopening w self = inr ds →
  time_index ds = Some ts → xr.is_monotonic_increasing ts = true →
  ∃ new w' c',
    without_future self now blackout w = (inr new, w')
    ∧ cutoff_of w' new = Some c'
    ∧ (∀ t, below t c' → below t c)
    ∧ ∀ q start_ts end_ts tbl w'',
        get new q start_ts end_ts w' = (inr tbl, w'') →
        (∀ tbl0 w0,
           get self q start_ts end_ts w = (inr tbl0, w0) →
           ∀ t, t ∈ table_times tbl → t ∈ table_times tbl0)
        ∧ (in_range (min_timestamp c end_ts) →
           ∃ tbl0, get self q start_ts end_ts w = (inr tbl0, w)).
Proof.
  intros Hds Hc Hre Hts Hmono.
  destruct (data_of_handle _ _ _ Hds) as (h & Hh & _).
  destruct (without_future_step w self h c ds now blackout Hh Hc Hre)
    as (w' & Hrun & _ & _ & Hds' & _ & Hc').
  eexists _, w', _. split; [done|]. split; [done|].
  split; [by intros t [? _]%below_min_timestamp|].
  intros q s e tbl w'' Hget.
  rewrite (run_get _ _ _ _ _ _ _ Hds' Hc') in Hget. injection Hget as Hsel _.
  rewrite (run_get _ _ _ _ _ _ _ Hds Hc). split.
  - intros tbl0 w0 [= Hsel0 _] t. rewrite (sel_table_times _ _ _ _ _ _ Hts Hsel).
    rewrite (sel_table_times _ _ _ _ _ _ Hts Hsel0).
    unfold window. rewrite !(elem_of_slice _ _ _ _ Hmono), !below_min_timestamp. tauto.
  - intros Hend. destruct (sel_in_range _ _ _ _ _ _ Hts Hsel) as [Hstart _].
    destruct (sel_returns_any_window _ _ _ _ _ _ s (min_timestamp c e) Hts Hsel
                Hstart Hend) as [tbl0 Hsel0].
    exists tbl0. by rewrite Hsel0.
Qed.

(** The instance 0 of the ten days store, at day 4 with a blackout of one
    hour. *)
Lemma without_future_narrows_witness :
  data_of started 0 = Some pv_store
  ∧ cutoff_of started 0 = Some None
  ∧ reopening started 0 = inr pv_store
  ∧ time_index pv_store = Some days
  ∧ xr.is_monotonic_increasing days = true
  ∧ ∃ new w' c',
      without_future 0 (day 4) 60 started = (inr new, w')
      ∧ cutoff_of w' new = Some c'
      ∧ (∀ t, below t c' → below t None)
      ∧ ∀ q start_ts end_ts tbl w'',
          get new q start_ts end_ts w' = (inr tbl, w'') →
          (∀ tbl0 w0,
             get 0 q start_ts end_ts started = (inr tbl0, w0) →
             ∀ t, t ∈ table_times tbl → t ∈ table_times tbl0)
          ∧ (in_range (min_timestamp None end_ts) →
             ∃ tbl0, get 0 q start_ts end_ts started = (inr tbl0, started)).
Proof.
  assert (H1 : data_of started 0 = Some pv_store) by (vm_compute; reflexivity).
  assert (H2 : cutoff_of started 0 = Some None) by (vm_compute; reflexivity).
  assert (H3 : reopening started 0 = inr pv_store) by (vm_compute; reflexivity).
  assert (H4 : time_index pv_store = Some days) by (vm_compute; reflexivity).
  assert (H5 : xr.is_monotonic_increasing days = true) by (vm_compute; reflexivity).
  repeat (split; [assumption|]).
  exact (without_future_narrows started 0 None pv_store days (day 4) 60 H1 H2 H3 H4 H5).
Defined.

(** X6: two derivations compose.  Deriving at [now1] with [blackout1] and
    then, from the result, at [now2] with [blackout2] gives the cutoff of the
    parent combined with the smaller of the two adjusted times, and deriving
    in the other order gives the same cutoff. *)
Theorem without_future_twice (w : world) (self h : nat) (c : option Timestamp)
    (ds : xr.Dataset) (now1 now2 : Timestamp) (blackout1 blackout2 : Z) :
  handle_of w self = Some h →
  cutoff_of w self = Some c →
  reopening w self = inr ds →
  ∃ a wa b wb a' wa' b' wb',
    without_future self now1 blackout1 w = (inr a, wa)
    ∧ without_future a now2 blackout2 wa = (inr b, wb)
    ∧ without_future self now2 blackout2 w = (inr a', wa')
    ∧ without_future a' now1 blackout1 wa' = (inr b', wb')
    ∧ cutoff_of wb b
      = Some (min_timestamp c
                (Some (Z.min (now1 - timedelta_minutes blackout1 - timedelta_seconds 1)
                             (now2 - timedelta_minutes blackout2 - timedelta_seconds 1))))
    ∧ cutoff_of wb' b' = cutoff_of wb b.
Proof.
  intros Hh Hc Hre.
  destruct (without_future_step w self h c ds now1 blackout1 Hh Hc Hre)
    as (wa & Hrun1 & _ & Hha & _ & Hrea & Hca).
  destruct (without_future_step wa _ _ _ ds now2 blackout2 Hha Hca Hrea)
    as (wb & Hrun2 & _ & _ & _ & _ & Hcb).
  destruct (without_future_step w self h c ds now2 blackout2 Hh Hc Hre)
    as (wa' & Hrun1' & _ & Hha' & _ & Hrea' & Hca').
  destruct (without_future_step wa' _ _ _ ds now1 blackout1 Hha' Hca' Hrea')
    as (wb' & Hrun2' & _ & _ & _ & _ & Hcb').
  eexists _, _, _, _, _, _, _, _. repeat (split; [done|]).
  rewrite Hcb, Hcb'. split; f_equal.
  - destruct c; simpl; f_equal; lia.
  - destruct c; simpl; f_equal; lia.
Qed.

(** The instance 0 of the ten days store, at day 4 with a blackout of one
    hour and at day 6 without blackout. *)
Lemma without_future_twice_witness :
  handle_of started 0 = Some O
  ∧ cutoff_of started 0 = Some None
  ∧ reopening started 0 = inr pv_store
  ∧ ∃ a wa b wb a' wa' b' wb',
      without_future 0 (day 4) 60 started = (inr a, wa)
      ∧ without_future a (day 6) 0 wa = (inr b, wb)
      ∧ without_future 0 (day 6) 0 started = (inr a', wa')
      ∧ without_future a' (day 4) 60 wa' = (inr b', wb')
      ∧ cutoff_of wb b
        = Some (min_timestamp None
                  (Some (Z.min (day 4 - timedelta_minutes 60 - timedelta_seconds 1)
                               (day 6 - timedelta_minutes 0 - timedelta_seconds 1))))
      ∧ cutoff_of wb' b' = cutoff_of wb b.
Proof.
  assert (H1 : handle_of started 0 = Some O) by (vm_compute; reflexivity).
  assert (H2 : cutoff_of started 0 = Some None) by (vm_compute; reflexivity).
  assert (H3 : reopening started 0 = inr pv_store) by (vm_compute; reflexivity).
  repeat (split; [assumption|]).
  exact (without_future_twice started 0 0 None pv_store (day 4) (day 6) 60 0 H1 H2 H3).
Defined.

(** ** Files that do not open *)

Lemma attr_field {A : Type} (w : world) (self : nat) (d : gmap string value)
    (name : string) (v : value) (proj : value → option A) (what : string) (x : A) :
  objects w !! self = Some d → attr w self name = Some v → proj v = Some x →
  field d name proj what = inr x.
Proof.
  intros Hd Hv Hx. apply attr_Some in Hv as (d' & Hd' & Hv). simplify_eq.
  by eapply field_Some.
Qed.

(** The dataset [_open] reads, for an instance with its four configuration
    attributes. *)
Lemma opened_configured (fs : gmap string xr.Dataset) (d : gmap string value)
    (path id_dim timestamp_dim : string) (rename : gmap string string) :
  d !! "_path" = Some (VPath path) →
  d !! "_id_dim_name" = Some (VStr id_dim) →
  d !! "_timestamp_dim_name" = Some (VStr timestamp_dim) →
  d !! "_rename" = Some (VDict rename) →
  opened fs d =
  match fs !! path with
  | Some file => xr.rename (rename_map_of id_dim timestamp_dim rename) file
  | None => inl (FileNotFoundError path)
  end.
Proof.
  intros Hp Hi Ht Hr. unfold opened.
  rewrite (field_Some _ _ _ _ _ id_dim Hi) by done.
  rewrite (field_Some _ _ _ _ _ timestamp_dim Ht) by done.
  rewrite (field_Some _ _ _ _ _ rename Hr) by done.
  rewrite (field_Some _ _ _ _ _ path Hp) by done.
  simpl. by destruct (fs !! path).
Qed.

(** X7: [without_future] needs the file.  On an instance whose file does
    not open any more the call raises the error of [open_dataset] on the
    path of the instance, opens no dataset, and leaves the parent as it was:
    the parent still answers every read from the dataset it has open. *)
Theorem without_future_file_gone (w : world) (self : nat) (ds : xr.Dataset)
    (c : option Timestamp) (path id_dim timestamp_dim : string)
    (rename : gmap string string) (now : Timestamp) (blackout : Z) (e : exn) :
  attr w self "_path" = Some (VPath path) →
  attr w self "_id_dim_name" = Some (VStr id_dim) →
  attr w self "_timestamp_dim_name" = Some (VStr timestamp_dim) →
  attr w self "_rename" = Some (VDict rename) →
  data_of w self = Some ds →
  cutoff_of w self = Some c →
  (open_dataset path w).1 = inl e →
  ∃ w',
    without_future self now blackout w = (inl e, w')
    ∧ datasets w' = datasets w
    ∧ data_of w' self = Some ds
    ∧ cutoff_of w' self = Some c
    ∧ observes_same w self w' self.
Proof.
  intros Hp Hi Ht Hr Hds Hc Hopen.
  assert (files w !! path = None ∧ e = FileNotFoundError path) as [Hgone ->].
  { unfold open_dataset in Hopen. destruct (files w !! path); simpl in Hopen; by simplify_eq. }
  pose proof Hds as Hds0. apply data_of_Some in Hds0 as (d & h & Hd & Hv & _).
  apply attr_Some in Hp as (d1 & Hd1 & Hp). apply attr_Some in Hi as (d2 & Hd2 & Hi).
  apply attr_Some in Ht as (d3 & Hd3 & Ht). apply attr_Some in Hr as (d4 & Hd4 & Hr).
  assert (d1 = d ∧ d2 = d ∧ d3 = d ∧ d4 = d) as (-> & -> & -> & ->)
    by (repeat split; congruence).
  eexists. unfold without_future. rewrite run_bind, run_copy. unfold snapshot.
  rewrite (run_getstate _ _ _ Hd), Hv, run_restore. simpl.
  rewrite opened_delete_data, (opened_configured _ _ _ _ _ _ Hp Hi Ht Hr), Hgone.
  split; [done|]. split; [done|].
  set (w' := {| files := files w; datasets := datasets w;
                objects := objects w ++ [delete "_data" d] |}).
  assert (extends w w') as Hext.
  { split; [done|]. split; [done|]. by apply prefix_app_r. }
  split; [by eapply extends_data_of|]. split; [by eapply extends_cutoff_of|].
  eapply observes_same_intro; eauto using extends_data_of, extends_cutoff_of.
Qed.

(** The instance 0 of the ten days store after its file has been removed. *)
Lemma without_future_file_gone_witness :
  attr unplugged 0 "_path" = Some (VPath "/data/pv.nc")
  ∧ attr unplugged 0 "_id_dim_name" = Some (VStr "ss_id")
  ∧ attr unplugged 0 "_timestamp_dim_name" = Some (VStr "timestamp")
  ∧ attr unplugged 0 "_rename" = Some (VDict ∅)
  ∧ data_of unplugged 0 = Some pv_store
  ∧ cutoff_of unplugged 0 = Some None
  ∧ (open_dataset "/data/pv.nc" unplugged).1 = inl (FileNotFoundError "/data/pv.nc")
  ∧ ∃ w',
      without_future 0 (day 4) 60 unplugged = (inl (FileNotFoundError "/data/pv.nc"), w')
      ∧ datasets w' = datasets unplugged
      ∧ data_of w' 0 = Some pv_store
      ∧ cutoff_of w' 0 = Some None
      ∧ observes_same unplugged 0 w' 0.
Proof.
  assert (H1 : attr unplugged 0 "_path" = Some (VPath "/data/pv.nc"))
    by (vm_compute; reflexivity).
  assert (H2 : attr unplugged 0 "_id_dim_name" = Some (VStr "ss_id"))
    by (vm_compute; reflexivity).
  assert (H3 : attr unplugged 0 "_timestamp_dim_name" = Some (VStr "timestamp"))
    by (vm_compute; reflexivity).
  assert (H4 : attr unplugged 0 "_rename" = Some (VDict ∅)) by (vm_compute; reflexivity).
  assert (H5 : data_of unplugged 0 = Some pv_store) by (vm_compute; reflexivity).
  assert (H6 : cutoff_of unplugged 0 = Some None) by (vm_compute; reflexivity).
  assert (H7 : (open_dataset "/data/pv.nc" unplugged).1
               = inl (FileNotFoundError "/data/pv.nc")) by (vm_compute; reflexivity).
  repeat (split; [assumption|]).
  exact (without_future_file_gone unplugged 0 pv_store None "/data/pv.nc" "ss_id"
           "timestamp" ∅ (day 4) 60 (FileNotFoundError "/data/pv.nc")
           H1 H2 H3 H4 H5 H6 H7).
Defined.

(** ** The constructor *)

(** The constructor: a new object with the configuration, opened on the
    files, without a cutoff. *)
Lemma run_new (w : world) (filepath timestamp_dim_name id_dim_name : string)
    (rename : option (gmap string string)) :
  new filepath timestamp_dim_name id_dim_name rename w =
  let d := configuration filepath timestamp_dim_name id_dim_name rename in
  match opened (files w) d with
  | inl e => (inl e, {| files := files w; datasets := datasets w;
                        objects := objects w ++ [d] |})
  | inr renamed =>
      let d' := <["_data" := VDataset (length (datasets w))]> d in
      match canonical renamed with
      | inl e => (inl e, {| files := files w; datasets := datasets w ++ [renamed];
                            objects := objects w ++ [d'] |})
      | inr ds => (inr (length (objects w)),
                   {| files := files w; datasets := datasets w ++ [ds];
                      objects := objects w ++ [<["_max_ts" := VNone]> d'] |})
      end
  end.
Proof.
  unfold new, __init__. rewrite run_bind. unfold new_object at 1.
  set (y := length (objects w)).
  assert (∀ dss d, {| files := files w; datasets := dss; objects := objects w ++ [d] |}.(objects)
                   !! y = Some d) as Hy.
  { intros dss d. simpl. by rewrite lookup_app_r, Nat.sub_diag. }
  assert (∀ d d', <[y := d']> (objects w ++ [d]) = objects w ++ [d']) as Hins.
  { intros d d'. by rewrite insert_app_r_alt, Nat.sub_diag. }
  cbv beta iota. rewrite run_bind.
  do 4 (rewrite run_bind; erewrite run_setattr by apply Hy;
        cbv beta iota; cbn [objects datasets files]; rewrite Hins).
  rewrite !run_bind.
  erewrite run_open by apply Hy. cbn [objects datasets files].
  fold (configuration filepath timestamp_dim_name id_dim_name rename).
  cbv zeta.
  destruct (opened (files w) _) as [e|renamed]; [done|].
  destruct (canonical renamed) as [e|ds]; [by rewrite Hins|].
  cbv beta iota zeta. rewrite Hins. unfold _set_max_ts.
  erewrite run_setattr by apply Hy. cbn [objects datasets files]. by rewrite Hins.
Qed.

Lemma configuration_lookup (filepath timestamp_dim_name id_dim_name : string)
    (rename : option (gmap string string)) :
  let d := configuration filepath timestamp_dim_name id_dim_name rename in
  d !! "_path" = Some (VPath filepath)
  ∧ d !! "_id_dim_name" = Some (VStr id_dim_name)
  ∧ d !! "_timestamp_dim_name" = Some (VStr timestamp_dim_name)
  ∧ d !! "_rename" = Some (VDict (default ∅ rename))
  ∧ d !! "_data" = None
  ∧ d !! "_max_ts" = None.
Proof. unfold configuration. repeat split; by simplify_map_eq. Qed.

Lemma opened_configuration (fs : gmap string xr.Dataset)
    (filepath timestamp_dim_name id_dim_name : string)
    (rename : option (gmap string string)) :
  opened fs (configuration filepath timestamp_dim_name id_dim_name rename) =
  match fs !! filepath with
  | Some file =>
      xr.rename (rename_map_of id_dim_name timestamp_dim_name (default ∅ rename)) file
  | None => inl (FileNotFoundError filepath)
  end.
Proof.
  destruct (configuration_lookup filepath timestamp_dim_name id_dim_name rename)
    as (Hp & Hi & Ht & Hr & _).
  by apply opened_configured.
Qed.

(** X8: the constructor on a path that does not open raises the error of
    [open_dataset] on that path and returns no instance; it opens no
    dataset, and the files and the instances there were stay as they were. *)
Theorem new_file_missing (w : world) (filepath timestamp_dim_name id_dim_name : string)
    (rename : option (gmap string string)) (e : exn) :
  (open_dataset filepath w).1 = inl e →
  ∃ w',
    new filepath timestamp_dim_name id_dim_name rename w = (inl e, w')
    ∧ files w' = files w
    ∧ datasets w' = datasets w
    ∧ ∀ i d, objects w !! i = Some d → objects w' !! i = Some d.
Proof.
  intros Hopen.
  assert (files w !! filepath = None ∧ e = FileNotFoundError filepath) as [Hgone ->].
  { unfold open_dataset in Hopen.
    destruct (files w !! filepath); simpl in Hopen; by simplify_eq. }
  eexists. rewrite run_new. cbv zeta.
  rewrite opened_configuration, Hgone. split; [done|]. split; [done|].
  split; [done|]. intros i d Hi. simpl. by apply lookup_app_l_Some.
Qed.

(** A path that is no file of the disk. *)
Lemma new_file_missing_witness :
  (open_dataset "/data/none.nc" disk).1 = inl (FileNotFoundError "/data/none.nc")
  ∧ ∃ w',
      new "/data/none.nc" _TS _ID None disk = (inl (FileNotFoundError "/data/none.nc"), w')
      ∧ files w' = files disk
      ∧ datasets w' = datasets disk
      ∧ ∀ i d, objects disk !! i = Some d → objects w' !! i = Some d.
Proof.
  assert (H1 : (open_dataset "/data/none.nc" disk).1
               = inl (FileNotFoundError "/data/none.nc")) by (vm_compute; reflexivity).
  split; [assumption|].
  exact (new_file_missing disk "/data/none.nc" _TS _ID None
           (FileNotFoundError "/data/none.nc") H1).
Defined.

(** X9: an instance the constructor returns is a new object that holds the
    four configuration attributes as they were passed, an absent rename
    table being the empty one; it has no cutoff, and a handle of its own on
    the one dataset the call has opened, which is the dataset the files
    give for its attributes; what was in the state before is still there. *)
Theorem new_instance (w w' : world) (filepath timestamp_dim_name id_dim_name : string)
    (rename : option (gmap string string)) (self : nat) :
  new filepath timestamp_dim_name id_dim_name rename w = (inr self, w') →
  self = length (objects w)
  ∧ attr w' self "_path" = Some (VPath filepath)
  ∧ attr w' self "_timestamp_dim_name" = Some (VStr timestamp_dim_name)
  ∧ attr w' self "_id_dim_name" = Some (VStr id_dim_name)
  ∧ attr w' self "_rename" = Some (VDict (default ∅ rename))
  ∧ cutoff_of w' self = Some None
  ∧ handle_of w' self = Some (length (datasets w))
  ∧ extends w w'
  ∧ ∃ ds,
      datasets w' = datasets w ++ [ds]
      ∧ data_of w' self = Some ds
      ∧ reopening w' self = inr ds.
Proof.
  rewrite run_new. cbv zeta.
  set (d := configuration filepath timestamp_dim_name id_dim_name rename).
  destruct (configuration_lookup filepath timestamp_dim_name id_dim_name rename)
    as (Hp & Hi & Ht & Hr & _). fold d in Hp, Hi, Ht, Hr.
  destruct (opened (files w) d) as [e|renamed] eqn:Hop; [done|].
  destruct (canonical renamed) as [e|ds] eqn:Hcan; [done|].
  intros [= <- <-].
  set (d' := <["_max_ts" := VNone]> (<["_data" := VDataset (length (datasets w))]> d)).
  assert (∀ name v, d' !! name = Some v →
                    attr {| files := files w; datasets := datasets w ++ [ds];
                            objects := objects w ++ [d'] |}
                      (length (objects w)) name = Some v) as Hattr.
  { intros name v Hv. apply attr_Some. exists d'. split; [|done].
    simpl. by rewrite lookup_app_r, Nat.sub_diag. }
  split; [done|].
  split; [apply Hattr; unfold d'; by rewrite !lookup_insert_ne|].
  split; [apply Hattr; unfold d'; by rewrite !lookup_insert_ne|].
  split; [apply Hattr; unfold d'; by rewrite !lookup_insert_ne|].
  split; [apply Hattr; unfold d'; by rewrite !lookup_insert_ne|].
  split.
  { unfold cutoff_of. by erewrite Hattr by (unfold d'; by rewrite lookup_insert_eq). }
  split.
  { unfold handle_of.
    by erewrite Hattr by (unfold d'; by rewrite lookup_insert_ne, lookup_insert_eq). }
  split; [solve_extends|].
  exists ds. split; [done|]. split.
  { apply data_of_Some. exists d', (length (datasets w)).
    split; [by simpl; rewrite lookup_app_r, Nat.sub_diag|].
    split; [unfold d'; by rewrite lookup_insert_ne, lookup_insert_eq|].
    simpl. by rewrite lookup_app_r, Nat.sub_diag. }
  unfold reopening. simpl. rewrite lookup_app_r, Nat.sub_diag by done. simpl.
  unfold d'. rewrite !reopened_insert by auto. unfold reopened. by rewrite Hop.
Qed.

(** The construction of the instance 0 of the ten days store. *)
Lemma new_instance_witness :
  new "/data/pv.nc" "timestamp" "ss_id" None disk = (inr O, started)
  ∧ O = length (objects disk)
  ∧ attr started 0 "_path" = Some (VPath "/data/pv.nc")
  ∧ attr started 0 "_timestamp_dim_name" = Some (VStr "timestamp")
  ∧ attr started 0 "_id_dim_name" = Some (VStr "ss_id")
  ∧ attr started 0 "_rename" = Some (VDict (default ∅ None))
  ∧ cutoff_of started 0 = Some None
  ∧ handle_of started 0 = Some (length (datasets disk))
  ∧ extends disk started
  ∧ ∃ ds,
      datasets started = datasets disk ++ [ds]
      ∧ data_of started 0 = Some ds
      ∧ reopening started 0 = inr ds.
Proof.
  assert (H1 : new "/data/pv.nc" "timestamp" "ss_id" None disk = (inr O, started))
    by (vm_compute; reflexivity).
  split; [assumption|].
  exact (new_instance disk started "/data/pv.nc" "timestamp" "ss_id" None 0 H1).
Defined.

(** ** The renaming *)

(** X10: the renaming [_open] passes to [rename].  An entry of the rename
    table of the instance is taken as it is; otherwise the name of the
    timestamp dimension goes to [ts] and the name of the id dimension to
    [pv_id], each only when it differs from its target, the timestamp
    dimension first when both have one name.  So the two dimension names
    never add a renaming of a name to itself: such an entry can only come
    from the rename table.  [_open] returns exactly when that renaming and
    the conversion of the ids to [str] go through on the file, the instance
    then holds their result; otherwise it raises what they raise. *)
Theorem open_rename_map (w : world) (self : nat) (path id_dim timestamp_dim : string)
    (rename : gmap string string) (file : xr.Dataset) :
  attr w self "_path" = Some (VPath path) →
  attr w self "_id_dim_name" = Some (VStr id_dim) →
  attr w self "_timestamp_dim_name" = Some (VStr timestamp_dim) →
  attr w self "_rename" = Some (VDict rename) →
  files w !! path = Some file →
  (∀ k,
     rename_map_of id_dim timestamp_dim rename !! k
     = match rename !! k with
       | Some v => Some v
       | None =>
           if decide (k = timestamp_dim ∧ timestamp_dim ≠ _TS) then Some _TS
           else if decide (k = id_dim ∧ id_dim ≠ _ID) then Some _ID
           else None
       end)
  ∧ (∀ k, rename_map_of id_dim timestamp_dim rename !! k = Some k →
          rename !! k = Some k)
  ∧ match xr.rename (rename_map_of id_dim timestamp_dim rename) file ≫= canonical with
    | inr ds => ∃ w', _open self w = (inr (), w') ∧ data_of w' self = Some ds
    | inl e => ∃ w', _open self w = (inl e, w')
    end.
Proof.
  intros Hp Hi Ht Hr Hfile.
  assert (∀ k,
       rename_map_of id_dim timestamp_dim rename !! k
       = match rename !! k with
         | Some v => Some v
         | None =>
             if decide (k = timestamp_dim ∧ timestamp_dim ≠ _TS) then Some _TS
             else if decide (k = id_dim ∧ id_dim ≠ _ID) then Some _ID
             else None
         end) as Hmap.
  { intros k. unfold rename_map_of. rewrite lookup_union.
    destruct (rename !! k) as [v|] eqn:Hk.
    { apply union_Some_l. }
    rewrite (left_id_L None (∪)).
    destruct (decide (id_dim ≠ _ID)), (decide (timestamp_dim ≠ _TS));
      rewrite ?lookup_insert, ?lookup_empty;
      repeat case_decide; try done; exfalso; subst; intuition. }
  split; [done|]. split.
  - intros k Hk. rewrite Hmap in Hk.
    destruct (rename !! k) as [v|]; [done|].
    repeat case_decide; try done; exfalso; intuition congruence.
  - apply attr_Some in Hp as (d & Hd & Hp). apply attr_Some in Hi as (d2 & Hd2 & Hi).
    apply attr_Some in Ht as (d3 & Hd3 & Ht). apply attr_Some in Hr as (d4 & Hd4 & Hr).
    assert (d2 = d ∧ d3 = d ∧ d4 = d) as (-> & -> & ->) by (repeat split; congruence).
    rewrite (run_open _ _ _ Hd), (opened_configured _ _ _ _ _ _ Hp Hi Ht Hr), Hfile.
    destruct (xr.rename _ file) as [e|renamed]; simpl; [by eexists|].
    destruct (canonical renamed) as [e|ds]; simpl; [by eexists|].
    eexists. split; [done|].
    apply data_of_Some. eexists _, _. simpl.
    split; [apply list_lookup_insert_eq; by eapply lookup_lt_Some|].
    split; [apply lookup_insert_eq|].
    by rewrite lookup_app_r, Nat.sub_diag.
Qed.

(** The instance 0 of the ten days store, whose file names its dimensions
    [ss_id] and [timestamp]. *)
Lemma open_rename_map_witness :
  attr started 0 "_path" = Some (VPath "/data/pv.nc")
  ∧ attr started 0 "_id_dim_name" = Some (VStr "ss_id")
  ∧ attr started 0 "_timestamp_dim_name" = Some (VStr "timestamp")
  ∧ attr started 0 "_rename" = Some (VDict ∅)
  ∧ files started !! "/data/pv.nc" = Some pv_file
  ∧ (∀ k,
       rename_map_of "ss_id" "timestamp" ∅ !! k
       = match (∅ : gmap string string) !! k with
         | Some v => Some v
         | None =>
             if decide (k = "timestamp" ∧ "timestamp" ≠ _TS) then Some _TS
             else if decide (k = "ss_id" ∧ "ss_id" ≠ _ID) then Some _ID
             else None
         end)
  ∧ (∀ k, rename_map_of "ss_id" "timestamp" ∅ !! k = Some k →
          (∅ : gmap string string) !! k = Some k)
  ∧ match xr.rename (rename_map_of "ss_id" "timestamp" ∅) pv_file ≫= canonical with
    | inr ds => ∃ w', _open 0 started = (inr (), w') ∧ data_of w' 0 = Some ds
    | inl e => ∃ w', _open 0 started = (inl e, w')
    end.
Proof.
  assert (H1 : attr started 0 "_path" = Some (VPath "/data/pv.nc"))
    by (vm_compute; reflexivity).
  assert (H2 : attr started 0 "_id_dim_name" = Some (VStr "ss_id"))
    by (vm_compute; reflexivity).
  assert (H3 : attr started 0 "_timestamp_dim_name" = Some (VStr "timestamp"))
    by (vm_compute; reflexivity).
  assert (H4 : attr started 0 "_rename" = Some (VDict ∅)) by (vm_compute; reflexivity).
  assert (H5 : files started !! "/data/pv.nc" = Some pv_file) by (vm_compute; reflexivity).
  repeat (split; [assumption|]).
  exact (open_rename_map started 0 "/data/pv.nc" "ss_id" "timestamp" ∅ pv_file
           H1 H2 H3 H4 H5).
Defined.

(** The empty renaming leaves a dataset whose coordinates and variables
    have different names as it is. *)
Lemma rename_empty (ds : xr.Dataset) :
  dom (xr.coords ds) ## dom (xr.data_vars ds) →
  xr.rename ∅ ds = inr ds.
Proof.
  intros Hdisj. unfold xr.rename.
  rewrite map_to_list_empty. rewrite decide_True by constructor.
  assert (prod_map (λ n : string, default n ((∅ : gmap string string) !! n)) id
            <$> map_to_list (xr.coords ds) = map_to_list (xr.coords ds)) as ->.
  { rewrite <- (list_fmap_id (map_to_list (xr.coords ds))) at 2.
    apply list_fmap_ext. intros i [k c] _. unfold prod_map. simpl.
    by rewrite lookup_empty. }
  assert (prod_map (λ n : string, default n ((∅ : gmap string string) !! n))
            (λ a, {| xr.dims := (λ n : string, default n ((∅ : gmap string string) !! n))
                                  <$> xr.dims a;
                     xr.values := xr.values a |})
            <$> map_to_list (xr.data_vars ds) = map_to_list (xr.data_vars ds)) as ->.
  { rewrite <- (list_fmap_id (map_to_list (xr.data_vars ds))) at 2.
    apply list_fmap_ext. intros i [k [dims values]] _. unfold prod_map. simpl.
    rewrite lookup_empty. simpl. do 2 f_equal.
    rewrite <- (list_fmap_id dims) at 2. apply list_fmap_ext.
    intros j n _. by rewrite lookup_empty. }
  rewrite decide_True.
  - rewrite !list_to_map_to_list. by destruct ds.
  - apply NoDup_app. split; [apply NoDup_fst_map_to_list|].
    split; [|apply NoDup_fst_map_to_list].
    intros k Hk Hk'.
    apply (Hdisj k); apply elem_of_dom.
    + apply list_elem_of_fmap in Hk as ([k1 c] & -> & Hk).
      apply elem_of_map_to_list in Hk. by eexists.
    + apply list_elem_of_fmap in Hk' as ([k1 a] & -> & Hk').
      apply elem_of_map_to_list in Hk'. by eexists.
Qed.

(** X11: with the default dimension names and no rename table, which is how
    the experiment configuration constructs the data source, the file is
    opened as it is: the dataset of the instance is the dataset of the file
    with the labels of its [pv_id] coordinate converted to [str], and
    nothing else changed.  A file without a [pv_id] coordinate makes the
    constructor raise [KeyError]. *)
Theorem new_default_names (w : world) (filepath : string) (file : xr.Dataset) :
  files w !! filepath = Some file →
  dom (xr.coords file) ## dom (xr.data_vars file) →
  (∀ ids, xr.coords file !! _ID = Some ids →
     ∃ w',
       new filepath _TS _ID None w = (inr (length (objects w)), w')
       ∧ data_of w' (length (objects w))
         = Some (xr.set_coord _ID (xr.astype_str ids) file))
  ∧ (xr.coords file !! _ID = None →
     ∃ w', new filepath _TS _ID None w = (inl (KeyError _ID), w')).
Proof.
  intros Hfile Hdisj.
  assert (opened (files w) (configuration filepath _TS _ID None) = inr file) as Hop.
  { rewrite opened_configuration, Hfile. unfold rename_map_of.
    rewrite !decide_False by (by intros H; apply H). simpl.
    rewrite (left_id_L ∅ (∪)). by apply rename_empty. }
  split.
  - intros ids Hids. eexists. rewrite run_new. cbv zeta. rewrite Hop.
    unfold canonical, xr.get_coord. rewrite Hids. simpl. split; [done|].
    apply data_of_Some. eexists _, _.
    split; [by simpl; rewrite lookup_app_r, Nat.sub_diag|].
    split; [by rewrite lookup_insert_ne, lookup_insert_eq|].
    simpl. by rewrite lookup_app_r, Nat.sub_diag.
  - intros Hnone. eexists. rewrite run_new. cbv zeta. rewrite Hop.
    unfold canonical, xr.get_coord. by rewrite Hnone.
Qed.

(** A file that has the names [ts] and [pv_id] already. *)
Lemma new_default_names_witness :
  files std_disk !! "/data/std.nc" = Some pv_store
  ∧ dom (xr.coords pv_store) ## dom (xr.data_vars pv_store)
  ∧ (∀ ids, xr.coords pv_store !! _ID = Some ids →
       ∃ w',
         new "/data/std.nc" _TS _ID None std_disk = (inr (length (objects std_disk)), w')
         ∧ data_of w' (length (objects std_disk))
           = Some (xr.set_coord _ID (xr.astype_str ids) pv_store))
  ∧ (xr.coords pv_store !! _ID = None →
       ∃ w', new "/data/std.nc" _TS _ID None std_disk = (inl (KeyError _ID), w')).
Proof.
  assert (H1 : files std_disk !! "/data/std.nc" = Some pv_store)
    by (vm_compute; reflexivity).
  assert (H2 : dom (xr.coords pv_store) ## dom (xr.data_vars pv_store)) by compute_done.
  repeat (split; [assumption|]).
  exact (new_default_names std_disk "/data/std.nc" pv_store H1 H2).
Defined.

(** ** The ids *)

Lemma str_is_LStr (l : xr.label) : is_LStr (xr.str l).
Proof. by destruct l. Qed.

(** X12: the ids of an instance are strings.  When the dataset of the
    instance is the one the files give for its attributes, the assertion of
    [list_pv_ids] never fails and every id the call returns is a string,
    also when the ids of the file are numbers. *)
Theorem list_pv_ids_strings (w : world) (self : nat) (ds : xr.Dataset) :
  data_of w self = Some ds →
  reopening w self = inr ds →
  (list_pv_ids self w).1 ≠ inl AssertionError
  ∧ ∀ out, (list_pv_ids self w).1 = inr out → Forall is_LStr out.
Proof.
  intros Hds Hre.
  assert (∃ renamed c, ds = xr.set_coord _ID (xr.astype_str c) renamed)
    as (renamed & c & ->).
  { unfold reopening in Hre. destruct (objects w !! self) as [d|]; [|done].
    unfold reopened in Hre. destruct (opened (files w) d) as [e|renamed]; [done|].
    simpl in Hre. unfold canonical in Hre.
    destruct (xr.get_coord _ID renamed) as [e|c]; [done|].
    simpl in Hre. injection Hre as <-. by eexists _, _. }
  rewrite (run_list_pv_ids _ _ _ Hds). simpl.
  unfold xr.get_coord. simpl. rewrite lookup_insert_eq. simpl.
  destruct c as [l|ls]; simpl; [by split|].
  assert (Forall is_LStr (xr.str <$> ls)) as Hall.
  { apply Forall_fmap, Forall_true. intros l. apply str_is_LStr. }
  destruct (xr.str <$> ls) as [|[n|s] out] eqn:Hout.
  - split; [done|]. by intros out [= <-].
  - by apply Forall_cons in Hall as [[] _].
  - split; [done|]. by intros out' [= <-].
Qed.

(** The instance 0 of the ten days store, whose file has integer ids. *)
Lemma list_pv_ids_strings_witness :
  data_of started 0 = Some pv_store
  ∧ reopening started 0 = inr pv_store
  ∧ (list_pv_ids 0 started).1 ≠ inl AssertionError
  ∧ ∀ out, (list_pv_ids 0 started).1 = inr out → Forall is_LStr out.
Proof.
  assert (H1 : data_of started 0 = Some pv_store) by (vm_compute; reflexivity).
  assert (H2 : reopening started 0 = inr pv_store) by (vm_compute; reflexivity).
  repeat (split; [assumption|]).
  exact (list_pv_ids_strings started 0 pv_store H1 H2).
Defined.

(** X13: the cutoff does not show in the ids.  Over files that still give
    the dataset the parent has open, [list_pv_ids] on the instance derived
    by [without_future] returns what it returns on the parent. *)
Theorem without_future_same_ids (w : world) (self : nat) (c : option Timestamp)
    (ds : xr.Dataset) (now : Timestamp) (blackout : Z) :
  data_of w self = Some ds →
  cutoff_of w self = Some c →
  reopening w self = inr ds →
  ∃ new w',
    without_future self now blackout w = (inr new, w')
    ∧ list_pv_ids new w' = ((list_pv_ids self w).1, w').
Proof.
  intros Hds Hc Hre.
  destruct (data_of_handle _ _ _ Hds) as (h & Hh & _).
  destruct (without_future_step w self h c ds now blackout Hh Hc Hre)
    as (w' & Hrun & _ & _ & Hds' & _ & _).
  eexists _, w'. split; [done|].
  by rewrite (run_list_pv_ids _ _ _ Hds'), (run_list_pv_ids _ _ _ Hds).
Qed.

(** The instance 0 of the ten days store, at day 4 with a blackout of one
    hour. *)
Lemma without_future_same_ids_witness :
  data_of started 0 = Some pv_store
  ∧ cutoff_of started 0 = Some None
  ∧ reopening started 0 = inr pv_store
  ∧ ∃ new w',
      without_future 0 (day 4) 60 started = (inr new, w')
      ∧ list_pv_ids new w' = ((list_pv_ids 0 started).1, w').
Proof.
  assert (H1 : data_of started 0 = Some pv_store) by (vm_compute; reflexivity).
  assert (H2 : cutoff_of started 0 = Some None) by (vm_compute; reflexivity).
  assert (H3 : reopening started 0 = inr pv_store) by (vm_compute; reflexivity).
  repeat (split; [assumption|]).
  exact (without_future_same_ids started 0 None pv_store (day 4) 60 H1 H2 H3).
Defined.

(** ** Snapshots *)

(** X14: the snapshot of a restored instance is the state it was restored
    from.  For a state without a [_data] entry, as every snapshot is, an
    instance that [restore] returns gives back that state as its
    snapshot. *)
Theorem restore_snapshot_same (w w' : world) (state : gmap string value) (y : nat) :
  state !! "_data" = None →
  restore state w = (inr y, w') →
  snapshot y w' = (inr state, w').
Proof.
  intros Hnone. rewrite run_restore. cbv zeta.
  destruct (opened (files w) state) as [e|renamed]; [done|].
  destruct (canonical renamed) as [e|ds]; [done|].
  intros [= <- <-]. unfold snapshot.
  erewrite run_getstate by (simpl; by rewrite lookup_app_r, Nat.sub_diag).
  rewrite lookup_insert_eq. by rewrite delete_insert_id.
Qed.

(** The snapshot of the instance 0 of the ten days store, restored as the
    instance 1. *)
Lemma restore_snapshot_same_witness :
  started_snapshot !! "_data" = None
  ∧ restore started_snapshot started = (inr 1%nat, (restore started_snapshot started).2)
  ∧ snapshot 1 (restore started_snapshot started).2
    = (inr started_snapshot, (restore started_snapshot started).2).
Proof.
  assert (H1 : started_snapshot !! "_data" = None) by (vm_compute; reflexivity).
  assert (H2 : restore started_snapshot started
               = (inr 1%nat, (restore started_snapshot started).2))
    by (vm_compute; reflexivity).
  repeat (split; [assumption|]).
  exact (restore_snapshot_same started (restore started_snapshot started).2
           started_snapshot 1 H1 H2).
Defined.

(** ** The visible range *)

(** X15: [min_ts] is never after [max_ts], and neither is after the cutoff.
    Both calls return on an instance whose store has timestamps. *)
Theorem min_ts_le_max_ts (w : world) (self : nat) (ds : xr.Dataset)
    (c : option Timestamp) (ts : list Timestamp) :
  data_of w self = Some ds →
  cutoff_of w self = Some c →
  time_index ds = Some ts → ts ≠ [] →
  ∃ a b,
    min_ts self w = (inr (Some a), w)
    ∧ max_ts self w = (inr (Some b), w)
    ∧ a <= b
    ∧ below b c.
Proof.
  intros Hds Hc Hts Hne.
  destruct (run_min_ts_times _ _ _ _ _ Hds Hc Hts Hne) as (lo & [Hlo _] & Hmin).
  destruct (run_max_ts_times _ _ _ _ _ Hds Hc Hts Hne) as (hi & [_ Hhi] & Hmax).
  specialize (Hhi lo Hlo). rewrite Hmin, Hmax.
  destruct c as [x|]; simpl; eexists _, _; repeat split; lia.
Qed.

(** The instance 0 of the ten days store. *)
Lemma min_ts_le_max_ts_witness :
  data_of started 0 = Some pv_store
  ∧ cutoff_of started 0 = Some None
  ∧ time_index pv_store = Some days
  ∧ days ≠ []
  ∧ ∃ a b,
      min_ts 0 started = (inr (Some a), started)
      ∧ max_ts 0 started = (inr (Some b), started)
      ∧ a <= b
      ∧ below b None.
Proof.
  assert (H1 : data_of started 0 = Some pv_store) by (vm_compute; reflexivity).
  assert (H2 : cutoff_of started 0 = Some None) by (vm_compute; reflexivity).
  assert (H3 : time_index pv_store = Some days) by (vm_compute; reflexivity).
  assert (H4 : days ≠ []) by (vm_compute; discriminate).
  repeat (split; [assumption|]).
  exact (min_ts_le_max_ts started 0 pv_store None days H1 H2 H3 H4).
Defined.

(** X16: a cutoff before the data.  When the cutoff is before every
    timestamp of the store, [min_ts] and [max_ts] both return the cutoff,
    which is no timestamp of the store, and every table that [get] returns
    is without timestamps.  The store has its timestamps in increasing
    order. *)
Theorem cutoff_before_data (w : world) (self : nat) (ds : xr.Dataset)
    (x : Timestamp) (ts : list Timestamp) :
  data_of w self = Some ds →
  cutoff_of w self = Some (Some x) →
  time_index ds = Some ts → ts ≠ [] →
  xr.is_monotonic_increasing ts = true →
  Forall (λ t, x < t) ts →
  min_ts self w = (inr (Some x), w)
  ∧ max_ts self w = (inr (Some x), w)
  ∧ (x ∉ ts)
  ∧ ∀ q start_ts end_ts tbl w',
      get self q start_ts end_ts w = (inr tbl, w') → table_times tbl = [].
Proof.
  intros Hds Hc Hts Hne Hmono Hbefore. rewrite Forall_forall in Hbefore.
  destruct (run_min_ts_times _ _ _ _ _ Hds Hc Hts Hne) as (lo & [Hlo _] & Hmin).
  destruct (run_max_ts_times _ _ _ _ _ Hds Hc Hts Hne) as (hi & [Hhi _] & Hmax).
  pose proof (Hbefore _ Hlo). pose proof (Hbefore _ Hhi).
  split; [rewrite Hmin; simpl; do 3 f_equal; lia|].
  split; [rewrite Hmax; simpl; do 3 f_equal; lia|].
  split; [intros Hx; specialize (Hbefore _ Hx); lia|].
  intros q s e tbl w' Hget.
  rewrite (run_get _ _ _ _ _ _ _ Hds Hc) in Hget. injection Hget as Hsel _.
  rewrite (sel_table_times _ _ _ _ _ _ Hts Hsel).
  destruct (window ts s (min_timestamp (Some x) e)) as [|t l] eqn:Hw; [done|].
  assert (t ∈ window ts s (min_timestamp (Some x) e)) as Ht by (rewrite Hw; by left).
  unfold window in Ht. apply (elem_of_slice _ _ _ _ Hmono) in Ht as (Hin & _ & Hb).
  apply below_min_timestamp in Hb as [Hb _]. simpl in Hb.
  specialize (Hbefore _ Hin). lia.
Qed.

(** The instance derived at three days before the first day of the store. *)
Lemma cutoff_before_data_witness :
  data_of early 1 = Some pv_store
  ∧ cutoff_of early 1 = Some (Some early_cutoff)
  ∧ time_index pv_store = Some days
  ∧ days ≠ []
  ∧ xr.is_monotonic_increasing days = true
  ∧ Forall (λ t, early_cutoff < t) days
  ∧ min_ts 1 early = (inr (Some early_cutoff), early)
  ∧ max_ts 1 early = (inr (Some early_cutoff), early)
  ∧ (early_cutoff ∉ days)
  ∧ ∀ q start_ts end_ts tbl w',
      get 1 q start_ts end_ts early = (inr tbl, w') → table_times tbl = [].
Proof.
  assert (H1 : data_of early 1 = Some pv_store) by (vm_compute; reflexivity).
  assert (H2 : cutoff_of early 1 = Some (Some early_cutoff)) by (vm_compute; reflexivity).
  assert (H3 : time_index pv_store = Some days) by (vm_compute; reflexivity).
  assert (H4 : days ≠ []) by (vm_compute; discriminate).
  assert (H5 : xr.is_monotonic_increasing days = true) by (vm_compute; reflexivity).
  assert (H6 : Forall (λ t, early_cutoff < t) days) by compute_done.
  repeat (split; [assumption|]).
  exact (cutoff_before_data early 1 pv_store early_cutoff days H1 H2 H3 H4 H5 H6).
Defined.
